(** * Sega AI driver: peripheral bus controller

    A shallow embedding of the interrupt latch and arbiter, the interrupt
    enable/select registers, the touchpad matrix scanner and the I/O port map
    of [src/mame/drivers/segaai.cpp], with the properties that the driver's
    specification states about them. *)

From Stdlib Require Import String Ascii ZArith List Bool Lia.
Import ListNotations.
Local Open Scope Z_scope.

(** ** Machine integers *)

(** Truncation of a C++ [int] result to [u8] on assignment. *)
Definition u8 (x : Z) : Z := x mod 256.

Definition is_u8 (x : Z) : Prop := 0 <= x < 256.

(** C++ truth value of an integer used as a condition. *)
Definition truthy (x : Z) : bool := negb (x =? 0).

(** ** Driver state *)

(** An access that the driver forwards to a device outside of it. *)
Inductive dev_access : Type :=
| V9938_write (offset data : Z)
| V9938_read (offset : Z)
| I8255_write (offset data : Z)
| I8255_read (offset : Z)
| I8251_data_w (data : Z)
| I8251_data_r
| I8251_control_w (data : Z)
| I8251_status_r
| Sn76489a_write (data : Z)
| Upd7759_port_w (data : Z)
| Upd7759_md_w (state : Z)
| Upd7759_set_rom_bank (bank : Z)
| Exp_write_io (offset data : Z)
| Exp_read_io (offset : Z).

(** The member variables of [segaai_state], followed by what the driver has
    done to its collaborators: the level it last put on input line 0 of
    [m_maincpu], and the accesses it forwarded to the other devices (most
    recent first). *)
Record segaai_state : Type := mkState {
  m_i8255_portb : Z;
  m_upd7759_ctrl : Z;
  m_port_1c : Z;
  m_port_1d : Z;
  m_port_1e : Z;
  m_prev_v9938_irq : Z;
  m_prev_upd7759_irq : Z;
  m_touchpad_x : Z;
  m_touchpad_y : Z;
  m_irq_active : Z;
  m_irq_enabled : Z;
  m_vector : Z;
  maincpu_line0 : Z;
  forwarded : list dev_access
}.

(** What the driver reads from the outside: the two joystick/button ports,
    the twenty touchpad row ports, the speech chip's busy output, and the
    values that the devices behind the port map answer to a read. *)
Record inputs : Type := mkInputs {
  m_port4 : Z;
  m_port5 : Z;
  m_port_tp : list Z;
  upd7759_busy_r : bool;
  device_answer : dev_access -> Z
}.

Definition set_i8255_portb (s : segaai_state) (v : Z) : segaai_state :=
  mkState v (m_upd7759_ctrl s) (m_port_1c s) (m_port_1d s) (m_port_1e s)
    (m_prev_v9938_irq s) (m_prev_upd7759_irq s) (m_touchpad_x s)
    (m_touchpad_y s) (m_irq_active s) (m_irq_enabled s) (m_vector s)
    (maincpu_line0 s) (forwarded s).

Definition set_upd7759_ctrl (s : segaai_state) (v : Z) : segaai_state :=
  mkState (m_i8255_portb s) v (m_port_1c s) (m_port_1d s) (m_port_1e s)
    (m_prev_v9938_irq s) (m_prev_upd7759_irq s) (m_touchpad_x s)
    (m_touchpad_y s) (m_irq_active s) (m_irq_enabled s) (m_vector s)
    (maincpu_line0 s) (forwarded s).

Definition set_port_1c (s : segaai_state) (v : Z) : segaai_state :=
  mkState (m_i8255_portb s) (m_upd7759_ctrl s) v (m_port_1d s) (m_port_1e s)
    (m_prev_v9938_irq s) (m_prev_upd7759_irq s) (m_touchpad_x s)
    (m_touchpad_y s) (m_irq_active s) (m_irq_enabled s) (m_vector s)
    (maincpu_line0 s) (forwarded s).

Definition set_port_1d (s : segaai_state) (v : Z) : segaai_state :=
  mkState (m_i8255_portb s) (m_upd7759_ctrl s) (m_port_1c s) v (m_port_1e s)
    (m_prev_v9938_irq s) (m_prev_upd7759_irq s) (m_touchpad_x s)
    (m_touchpad_y s) (m_irq_active s) (m_irq_enabled s) (m_vector s)
    (maincpu_line0 s) (forwarded s).

Definition set_port_1e (s : segaai_state) (v : Z) : segaai_state :=
  mkState (m_i8255_portb s) (m_upd7759_ctrl s) (m_port_1c s) (m_port_1d s) v
    (m_prev_v9938_irq s) (m_prev_upd7759_irq s) (m_touchpad_x s)
    (m_touchpad_y s) (m_irq_active s) (m_irq_enabled s) (m_vector s)
    (maincpu_line0 s) (forwarded s).

Definition set_prev_v9938_irq (s : segaai_state) (v : Z) : segaai_state :=
  mkState (m_i8255_portb s) (m_upd7759_ctrl s) (m_port_1c s) (m_port_1d s)
    (m_port_1e s) v (m_prev_upd7759_irq s) (m_touchpad_x s)
    (m_touchpad_y s) (m_irq_active s) (m_irq_enabled s) (m_vector s)
    (maincpu_line0 s) (forwarded s).

Definition set_prev_upd7759_irq (s : segaai_state) (v : Z) : segaai_state :=
  mkState (m_i8255_portb s) (m_upd7759_ctrl s) (m_port_1c s) (m_port_1d s)
    (m_port_1e s) (m_prev_v9938_irq s) v (m_touchpad_x s)
    (m_touchpad_y s) (m_irq_active s) (m_irq_enabled s) (m_vector s)
    (maincpu_line0 s) (forwarded s).

Definition set_touchpad_xy (s : segaai_state) (x y : Z) : segaai_state :=
  mkState (m_i8255_portb s) (m_upd7759_ctrl s) (m_port_1c s) (m_port_1d s)
    (m_port_1e s) (m_prev_v9938_irq s) (m_prev_upd7759_irq s) x y
    (m_irq_active s) (m_irq_enabled s) (m_vector s)
    (maincpu_line0 s) (forwarded s).

Definition set_irq_active (s : segaai_state) (v : Z) : segaai_state :=
  mkState (m_i8255_portb s) (m_upd7759_ctrl s) (m_port_1c s) (m_port_1d s)
    (m_port_1e s) (m_prev_v9938_irq s) (m_prev_upd7759_irq s) (m_touchpad_x s)
    (m_touchpad_y s) v (m_irq_enabled s) (m_vector s)
    (maincpu_line0 s) (forwarded s).

Definition set_irq_enabled (s : segaai_state) (v : Z) : segaai_state :=
  mkState (m_i8255_portb s) (m_upd7759_ctrl s) (m_port_1c s) (m_port_1d s)
    (m_port_1e s) (m_prev_v9938_irq s) (m_prev_upd7759_irq s) (m_touchpad_x s)
    (m_touchpad_y s) (m_irq_active s) v (m_vector s)
    (maincpu_line0 s) (forwarded s).

Definition set_vector (s : segaai_state) (v : Z) : segaai_state :=
  mkState (m_i8255_portb s) (m_upd7759_ctrl s) (m_port_1c s) (m_port_1d s)
    (m_port_1e s) (m_prev_v9938_irq s) (m_prev_upd7759_irq s) (m_touchpad_x s)
    (m_touchpad_y s) (m_irq_active s) (m_irq_enabled s) v
    (maincpu_line0 s) (forwarded s).

(** [m_maincpu->set_input_line(0, state)]. *)
Definition set_input_line0 (s : segaai_state) (v : Z) : segaai_state :=
  mkState (m_i8255_portb s) (m_upd7759_ctrl s) (m_port_1c s) (m_port_1d s)
    (m_port_1e s) (m_prev_v9938_irq s) (m_prev_upd7759_irq s) (m_touchpad_x s)
    (m_touchpad_y s) (m_irq_active s) (m_irq_enabled s) (m_vector s)
    v (forwarded s).

(** A call into one of the other devices. *)
Definition forward (s : segaai_state) (a : dev_access) : segaai_state :=
  mkState (m_i8255_portb s) (m_upd7759_ctrl s) (m_port_1c s) (m_port_1d s)
    (m_port_1e s) (m_prev_v9938_irq s) (m_prev_upd7759_irq s) (m_touchpad_x s)
    (m_touchpad_y s) (m_irq_active s) (m_irq_enabled s) (m_vector s)
    (maincpu_line0 s) (a :: forwarded s).

(** ** Fatal errors *)

(** [fatalerror(format, ...)] ends the emulation; the diagnostic is kept as
    the format string and its arguments. *)
Inductive result (A : Type) : Type :=
| Ok (a : A)
| Fatalerror (format : string) (args : list Z).
Arguments Ok {A} a.
Arguments Fatalerror {A} format args.

Definition newline : string := String (ascii_of_nat 10) EmptyString.

Definition msg_unknown_irq : string :=
  ("Unknown irq triggered: $%02X active, $%02X enabled" ++ newline)%string.

Definition msg_no_irq : string :=
  ("irq_callback called but no irq active or enabled: $%02X active, $%02X enabled"
     ++ newline)%string.

(** ** Constants of the driver *)

Definition TOUCHPAD_ROWS : nat := 20.

Definition VECTOR_V9938 : Z := 0xf8.
Definition VECTOR_I8251_SEND : Z := 0xf9.
Definition VECTOR_I8251_RECEIVE : Z := 0xfa.
Definition VECTOR_UPD7759 : Z := 0xfb.
Definition IRQ_V9938 : Z := 0x01.
Definition IRQ_UPD7759 : Z := 0x08.

(** [tp_x] and [tp_y] of [get_touchpad_pressed]. *)
Definition tp_x : list Z :=
  [   5;  15;  26;  37;  47;  58;  69;  79;  90; 101; 111; 122;
    133; 143; 154; 165; 175; 186; 197; 207; 218; 229; 239; 250 ].

Definition tp_y : list Z :=
  [   6;  18;  31;  44;  57;  70;  82;  95; 108; 121;
    134; 146; 159; 172; 185; 198; 210; 223; 236; 249 ].

(** ** Touchpad *)

(** [while (port) { bit++; port >>= 1; }] on the binary digits of a non-zero
    [port]: one round per digit. *)
Fixpoint shift_out_pos (p : positive) (bit : Z) : Z :=
  match p with
  | xH => bit + 1
  | xO q => shift_out_pos q (bit + 1)
  | xI q => shift_out_pos q (bit + 1)
  end.

(** The same loop on a [u32] value; it returns the final [bit]. *)
Definition shift_out (port bit : Z) : Z :=
  match port with
  | Zpos p => shift_out_pos p bit
  | _ => bit
  end.

(** The [for] loop of [get_touchpad_pressed], with [todo] rows left to visit
    starting at [row]. *)
Fixpoint scan_rows (todo row : nat) (inp : inputs) (s : segaai_state)
  : bool * segaai_state :=
  match todo with
  | O => (false, s)
  | S todo' =>
      let port := nth row (m_port_tp inp) 0 in
      if truthy port then
        let bit := shift_out port (-1) in
        if (0 <=? bit) && (bit <? Z.of_nat (length tp_x)) then
          (true,
           set_touchpad_xy s (nth (Z.to_nat bit) tp_x 0) (nth row tp_y 0))
        else scan_rows todo' (S row) inp s
      else scan_rows todo' (S row) inp s
  end.

Definition get_touchpad_pressed (inp : inputs) (s : segaai_state)
  : bool * segaai_state :=
  scan_rows TOUCHPAD_ROWS 0 inp s.

Definition port1c_w (s : segaai_state) (data : Z) : segaai_state :=
  set_port_1c s data.

Definition port1d_w (s : segaai_state) (data : Z) : segaai_state :=
  set_port_1d s data.

Definition port1e_w (s : segaai_state) (data : Z) : segaai_state :=
  set_port_1e s data.

Definition port1e_r (s : segaai_state) : Z :=
  if truthy (Z.land (m_port_1c s) 0x01) then m_touchpad_y s
  else m_touchpad_x s.

(** ** Mainboard 8255 callbacks *)

Definition i8255_porta_r (inp : inputs) (s : segaai_state) : Z :=
  u8 (Z.lor (if upd7759_busy_r inp then 0x40 else 0)
            (Z.land (m_port4 inp) (Z.lnot 0x40))).

Definition i8255_portb_r (inp : inputs) (s : segaai_state)
  : Z * segaai_state :=
  let s1 :=
    set_i8255_portb s
      (u8 (Z.lor (Z.land (m_i8255_portb s) 0xf8) (Z.land (m_port5 inp) 0x01))) in
  let s2 :=
    if truthy (Z.land (m_port_1d s1) 0x01) then
      let (pressed, s1') := get_touchpad_pressed inp s1 in
      let s1'' :=
        if negb pressed
        then set_i8255_portb s1' (u8 (Z.lor (m_i8255_portb s1') 0x02))
        else s1' in
      set_i8255_portb s1'' (u8 (Z.lor (m_i8255_portb s1'') 0x04))
    else
      set_i8255_portb s1 (u8 (Z.lor (m_i8255_portb s1) 0x02)) in
  (u8 (Z.land (m_i8255_portb s2) 0xdf), s2).

Definition i8255_portc_r (s : segaai_state) : Z := 0xf0.

(** Only writes a log line. *)
Definition i8255_portc_w (s : segaai_state) (data : Z) : segaai_state := s.

Definition upd7759_ctrl_w (s : segaai_state) (data : Z) : segaai_state :=
  let s1 := set_upd7759_ctrl s data in
  let s2 :=
    forward s1
      (Upd7759_md_w (if truthy (Z.land (m_upd7759_ctrl s1) 0x01) then 0 else 1)) in
  forward s2
    (Upd7759_set_rom_bank (Z.shiftr (Z.land (m_upd7759_ctrl s2) 2) 1)).

(** ** Interrupt enable and select registers *)

Definition irq_enable_r (s : segaai_state) : Z := m_irq_enabled s.

Definition irq_enable_w (s : segaai_state) (data : Z) : segaai_state :=
  set_irq_enabled s data.

Definition irq_select_w (s : segaai_state) (data : Z) : segaai_state :=
  let pin := Z.land (Z.shiftr data 1) 0x07 in
  if truthy (Z.land data 1) then
    set_irq_enabled s (u8 (Z.lor (m_irq_enabled s) (Z.shiftl 1 pin)))
  else
    set_irq_enabled s (u8 (Z.land (m_irq_enabled s) (Z.lnot (Z.shiftl 1 pin)))).

(** ** I/O port map *)

Inductive read_handler : Type :=
| Rd_v9938 | Rd_i8255 | Rd_i8251_data | Rd_i8251_status
| Rd_irq_enable | Rd_port1e | Rd_exp_io.

Inductive write_handler : Type :=
| Wr_v9938 | Wr_i8255 | Wr_i8251_data | Wr_i8251_control
| Wr_upd7759_ctrl | Wr_sn76489a | Wr_upd7759_port
| Wr_irq_enable | Wr_irq_select
| Wr_port1c | Wr_port1d | Wr_port1e | Wr_exp_io.

(** One [map(start, end).mirror(m).r/w/rw(...)] line of an address map. *)
Record map_entry : Type := mkEntry {
  e_start : Z;
  e_end : Z;
  e_mirror : Z;
  e_read : option read_handler;
  e_write : option write_handler
}.

(** [segaai_state::io_map], line by line. *)
Definition io_map : list map_entry :=
  [ mkEntry 0x00 0x03 0 (Some Rd_v9938) (Some Wr_v9938);
    mkEntry 0x04 0x07 0 (Some Rd_i8255) (Some Wr_i8255);
    mkEntry 0x08 0x08 0 (Some Rd_i8251_data) (Some Wr_i8251_data);
    mkEntry 0x09 0x09 0 (Some Rd_i8251_status) (Some Wr_i8251_control);
    mkEntry 0x0b 0x0b 0 None (Some Wr_upd7759_ctrl);
    mkEntry 0x0c 0x0c 0 None (Some Wr_sn76489a);
    mkEntry 0x14 0x14 0x01 None (Some Wr_upd7759_port);
    mkEntry 0x16 0x16 0 (Some Rd_irq_enable) (Some Wr_irq_enable);
    mkEntry 0x17 0x17 0 None (Some Wr_irq_select);
    mkEntry 0x1c 0x1c 0 None (Some Wr_port1c);
    mkEntry 0x1d 0x1d 0 None (Some Wr_port1d);
    mkEntry 0x1e 0x1e 0 (Some Rd_port1e) (Some Wr_port1e);
    mkEntry 0x20 0x3f 0 (Some Rd_exp_io) (Some Wr_exp_io) ].

(** Modelled from the spec: the address-space core that applies [io_map] to
    a CPU access is not among the driver's sources.  Following the
    specification of the dispatcher, an address belongs to a window when,
    with the window's mirror bits ignored, it lies between the window's
    bounds; the handler receives the offset from the window's start. *)
Definition covers (e : map_entry) (addr : Z) : bool :=
  let a := Z.land addr (Z.lnot (e_mirror e)) in
  (e_start e <=? a) && (a <=? e_end e).

Definition window_offset (e : map_entry) (addr : Z) : Z :=
  Z.land addr (Z.lnot (e_mirror e)) - e_start e.

Definition has_handler {A : Type} (h : option A) : bool :=
  match h with Some _ => true | None => false end.

Definition read_window (addr : Z) : option map_entry :=
  find (fun e => covers e addr && has_handler (e_read e)) io_map.

Definition write_window (addr : Z) : option map_entry :=
  find (fun e => covers e addr && has_handler (e_write e)) io_map.

(** Modelled from the spec: the value of a read from a port that no window
    claims is decided by the address-space core, which is not among the
    driver's sources; the specification gives it as the idle value with all
    bits set. *)
Definition idle_value : Z := 0xFF.

Definition ask (inp : inputs) (s : segaai_state) (a : dev_access)
  : Z * segaai_state :=
  (device_answer inp a, forward s a).

Definition do_read (inp : inputs) (h : read_handler) (offset : Z)
    (s : segaai_state) : Z * segaai_state :=
  match h with
  | Rd_v9938 => ask inp s (V9938_read offset)
  | Rd_i8255 => ask inp s (I8255_read offset)
  | Rd_i8251_data => ask inp s I8251_data_r
  | Rd_i8251_status => ask inp s I8251_status_r
  | Rd_irq_enable => (irq_enable_r s, s)
  | Rd_port1e => (port1e_r s, s)
  | Rd_exp_io => ask inp s (Exp_read_io offset)
  end.

Definition do_write (h : write_handler) (offset data : Z) (s : segaai_state)
  : segaai_state :=
  match h with
  | Wr_v9938 => forward s (V9938_write offset data)
  | Wr_i8255 => forward s (I8255_write offset data)
  | Wr_i8251_data => forward s (I8251_data_w data)
  | Wr_i8251_control => forward s (I8251_control_w data)
  | Wr_upd7759_ctrl => upd7759_ctrl_w s data
  | Wr_sn76489a => forward s (Sn76489a_write data)
  | Wr_upd7759_port => forward s (Upd7759_port_w data)
  | Wr_irq_enable => irq_enable_w s data
  | Wr_irq_select => irq_select_w s data
  | Wr_port1c => port1c_w s data
  | Wr_port1d => port1d_w s data
  | Wr_port1e => port1e_w s data
  | Wr_exp_io => forward s (Exp_write_io offset data)
  end.

(** A CPU read of an I/O port. *)
Definition io_read (inp : inputs) (addr : Z) (s : segaai_state)
  : Z * segaai_state :=
  match read_window addr with
  | Some e =>
      match e_read e with
      | Some h => do_read inp h (window_offset e addr) s
      | None => (idle_value, s)
      end
  | None => (idle_value, s)
  end.

(** A CPU write to an I/O port. *)
Definition io_write (addr data : Z) (s : segaai_state) : segaai_state :=
  match write_window addr with
  | Some e =>
      match e_write e with
      | Some h => do_write h (window_offset e addr) data s
      | None => s
      end
  | None => s
  end.

(** ** Interrupt latch and arbiter *)

Definition fatalerror {A : Type} (format : string) (args : list Z) : result A :=
  Fatalerror format args.

(** Whether the pending bit [mask] of [m_irq_active] is set. *)
Definition pending (s : segaai_state) (mask : Z) : bool :=
  truthy (Z.land (m_irq_active s) mask).

(** Whether the source [mask] is both pending and enabled. *)
Definition requesting (s : segaai_state) (mask : Z) : bool :=
  truthy (Z.land (Z.land (m_irq_active s) (m_irq_enabled s)) mask).

(** ** Memory map *)

Inductive mem_target : Type :=
| Mem_ram | Mem_exp_lo | Mem_exp_hi | Mem_cardslot | Mem_rom.

(** One [map(start, end)] line of the memory map with what it maps. *)
Record mem_entry : Type := mkMem {
  mem_start : Z;
  mem_end : Z;
  mem_what : mem_target
}.

(** [segaai_state::mem_map], line by line. *)
Definition mem_map : list mem_entry :=
  [ mkMem 0x00000 0x1ffff Mem_ram;
    mkMem 0x20000 0x3ffff Mem_exp_lo;
    mkMem 0x80000 0x8ffff Mem_exp_hi;
    mkMem 0xa0000 0xbffff Mem_cardslot;
    mkMem 0xc0000 0xdffff Mem_rom;
    mkMem 0xe0000 0xeffff Mem_rom;
    mkMem 0xf0000 0xfffff Mem_rom ].

(** Modelled from the spec: as for the I/O map, an address belongs to a
    window when it lies between the window's bounds, and the handler
    receives the offset from the window's start. *)
Definition mem_covers (e : mem_entry) (addr : Z) : bool :=
  (mem_start e <=? addr) && (addr <=? mem_end e).

(** ** Sound box expansion *)

(** [segaai_soundbox_device]: 128KB of RAM behind the low expansion window,
    a 64KB ROM behind the high one, and three chips behind the expansion
    I/O window. *)
Module segaai_soundbox_device.

(** A register access that the sound box forwards to one of its chips. *)
Inductive chip_access : Type :=
| Ym2151_read (offset : Z)
| Ym2151_write (offset data : Z)
| Tmp8253_read (offset : Z)
| Tmp8253_write (offset data : Z)
| Tmp8255_read (offset : Z)
| Tmp8255_write (offset data : Z).

(** [m_ram] is the array [u8 m_ram[0x20000]], [m_rom] the contents of the
    ROM region "soundbox" of 0x10000 bytes; [accessed] records the accesses
    forwarded to the chips, most recent first. *)
Record device : Type := mkDevice {
  m_ram : list Z;
  m_rom : list Z;
  accessed : list chip_access
}.

Definition well_formed (d : device) : Prop :=
  length (m_ram d) = Z.to_nat 0x20000 /\ length (m_rom d) = Z.to_nat 0x10000.

(** [l[i] = v] on an array; an index outside the array, which the masks
    below exclude, is out of bounds in the source and changes nothing
    here. *)
Fixpoint store (l : list Z) (i : nat) (v : Z) : list Z :=
  match l, i with
  | [], _ => []
  | _ :: rest, O => v :: rest
  | x :: rest, S j => x :: store rest j v
  end.

Definition read_lo (d : device) (offset : Z) : Z :=
  nth (Z.to_nat (Z.land offset 0x1ffff)) (m_ram d) 0.

Definition write_lo (d : device) (offset data : Z) : device :=
  mkDevice (store (m_ram d) (Z.to_nat (Z.land offset 0x1ffff)) data)
           (m_rom d) (accessed d).

Definition read_hi (d : device) (offset : Z) : Z :=
  nth (Z.to_nat (Z.land offset 0xffff)) (m_rom d) 0.





End segaai_soundbox_device.

(** A sound box with cleared RAM and ROM. *)
Definition blank_soundbox : segaai_soundbox_device.device :=
  segaai_soundbox_device.mkDevice
    (repeat 0 (Z.to_nat 0x20000)) (repeat 0 (Z.to_nat 0x10000)) [].

(** The two interrupt sources that [irq_callback] serves, each with its
    pending bit and its vector. *)
Inductive source : Type := Src_v9938 | Src_upd7759.

Definition irq_bit (src : source) : Z :=
  match src with Src_v9938 => IRQ_V9938 | Src_upd7759 => IRQ_UPD7759 end.

Definition irq_vector (src : source) : Z :=
  match src with Src_v9938 => VECTOR_V9938 | Src_upd7759 => VECTOR_UPD7759 end.

Section Driver.

(** The two line levels of the emulator core that the driver uses.  Their
    declaration is not among the driver's sources; the driver only relies
    on their being different. *)
Variables CLEAR_LINE ASSERT_LINE : Z.
Hypothesis line_levels_differ : CLEAR_LINE <> ASSERT_LINE.

Definition update_irq_state (s : segaai_state) : segaai_state :=
  let state := CLEAR_LINE in
  let state :=
    if truthy (Z.land (m_irq_active s) (m_irq_enabled s))
    then ASSERT_LINE else state in
  set_input_line0 s state.

Definition vdp_interrupt (s : segaai_state) (state : Z) : segaai_state :=
  let s1 :=
    if negb (state =? CLEAR_LINE) then
      if m_prev_v9938_irq s =? CLEAR_LINE
      then set_irq_active s (u8 (Z.lor (m_irq_active s) IRQ_V9938))
      else s
    else s in
  let s2 := set_prev_v9938_irq s1 state in
  update_irq_state s2.

(** The level that [upd7759_drq_w] derives from the raw DRQ signal. *)
Definition upd7759_irq_level (state : Z) : Z :=
  if truthy state then CLEAR_LINE else ASSERT_LINE.

Definition upd7759_drq_w (s : segaai_state) (state : Z) : segaai_state :=
  let upd7759_irq := upd7759_irq_level state in
  let s1 :=
    if negb (upd7759_irq =? CLEAR_LINE) then
      if m_prev_upd7759_irq s =? CLEAR_LINE
      then set_irq_active s (u8 (Z.lor (m_irq_active s) IRQ_UPD7759))
      else s
    else s in
  let s2 := set_prev_upd7759_irq s1 upd7759_irq in
  update_irq_state s2.

(** The body of the [if] is commented out in the source. *)
Definition upd7759_busy_w (s : segaai_state) (state : Z) : segaai_state :=
  if negb (truthy (Z.land (m_upd7759_ctrl s) 0x01)) then s else s.

Definition irq_callback (s : segaai_state) : result (Z * segaai_state) :=
  let active_enabled := Z.land (m_irq_active s) (m_irq_enabled s) in
  let finish (vector : Z) (s1 : segaai_state) :=
    let s2 := set_vector s1 vector in
    Ok (vector, update_irq_state s2) in
  if truthy (Z.land active_enabled IRQ_V9938) then
    finish VECTOR_V9938
      (set_irq_active s (u8 (Z.land (m_irq_active s) (Z.lnot IRQ_V9938))))
  else if truthy (Z.land active_enabled IRQ_UPD7759) then
    finish VECTOR_UPD7759
      (set_irq_active s (u8 (Z.land (m_irq_active s) (Z.lnot IRQ_UPD7759))))
  else
    if truthy active_enabled then
      fatalerror msg_unknown_irq [m_irq_active s; m_irq_enabled s]
    else
      fatalerror msg_no_irq [m_irq_active s; m_irq_enabled s].

(** [machine_start] assigns the member variables; what the driver had done
    to its collaborators before stays as it was. *)
Definition machine_start (s : segaai_state) : segaai_state :=
  mkState 0x7f 0 0 0 0 CLEAR_LINE CLEAR_LINE 0 0 0 0 0
    (maincpu_line0 s) (forwarded s).

(** ** The driver as a transition system *)

(** The entry points through which the rest of the emulator reaches the
    driver after [machine_start]. *)
Inductive event : Type :=
| Ev_vdp_interrupt (state : Z)
| Ev_upd7759_drq_w (state : Z)
| Ev_upd7759_busy_w (state : Z)
| Ev_irq_callback
| Ev_i8255_porta_r
| Ev_i8255_portb_r
| Ev_i8255_portc_r
| Ev_i8255_portc_w (data : Z)
| Ev_io_read (addr : Z)
| Ev_io_write (addr data : Z).

(** One call, with the inputs as they are during it; the result is the
    value handed back to the caller, if any, and the next state. *)
Definition step (inp : inputs) (s : segaai_state) (e : event)
  : result (option Z * segaai_state) :=
  match e with
  | Ev_vdp_interrupt state => Ok (None, vdp_interrupt s state)
  | Ev_upd7759_drq_w state => Ok (None, upd7759_drq_w s state)
  | Ev_upd7759_busy_w state => Ok (None, upd7759_busy_w s state)
  | Ev_irq_callback =>
      match irq_callback s with
      | Ok (vector, s') => Ok (Some vector, s')
      | Fatalerror format args => Fatalerror format args
      end
  | Ev_i8255_porta_r => Ok (Some (i8255_porta_r inp s), s)
  | Ev_i8255_portb_r =>
      let (data, s') := i8255_portb_r inp s in Ok (Some data, s')
  | Ev_i8255_portc_r => Ok (Some (i8255_portc_r s), s)
  | Ev_i8255_portc_w data => Ok (None, i8255_portc_w s data)
  | Ev_io_read addr =>
      let (data, s') := io_read inp addr s in Ok (Some data, s')
  | Ev_io_write addr data => Ok (None, io_write addr data s)
  end.

(** A sequence of calls; the result lists each call with what it handed
    back, in order. *)
Fixpoint run (s : segaai_state) (calls : list (inputs * event))
  : result (list (event * option Z) * segaai_state) :=
  match calls with
  | [] => Ok ([], s)
  | (inp, e) :: rest =>
      match step inp s e with
      | Ok (out, s') =>
          match run s' rest with
          | Ok (outs, s'') => Ok ((e, out) :: outs, s'')
          | Fatalerror format args => Fatalerror format args
          end
      | Fatalerror format args => Fatalerror format args
      end
  end.

(** The part of the state that belongs to the interrupt latch and arbiter,
    without the enable mask, and the sampled touchpad coordinates. *)
Definition latch_view (s : segaai_state) : Z * Z * Z * Z * Z :=
  (m_irq_active s, m_prev_v9938_irq s, m_prev_upd7759_irq s, m_vector s,
   maincpu_line0 s).

Definition touchpad_view (s : segaai_state) : Z * Z :=
  (m_touchpad_x s, m_touchpad_y s).

(** The CPU interrupt line, as the driver last set it, is at the level
    [asserted] exactly when some source is both pending and enabled. *)
Definition line_follows (asserted : Z) (s : segaai_state) : Prop :=
  maincpu_line0 s = asserted
  <-> Z.land (m_irq_active s) (m_irq_enabled s) <> 0.

(** The byte that, written to port 0x17, copies bit [pin] of the mask [m]
    into the enable register. *)
Definition select_byte (m pin : Z) : Z := 2 * pin + Z.b2z (Z.testbit m pin).

(** The input ports of the touchpad as [INPUT_TP_ROW] declares them:
    [TOUCHPAD_ROWS] ports of 24 bits each. *)
Definition touchpad_matrix (inp : inputs) : Prop :=
  length (m_port_tp inp) = TOUCHPAD_ROWS
  /\ Forall (fun port => 0 <= port < 2 ^ 24) (m_port_tp inp).

(** [bit] is the highest, respectively the lowest, bit that is set in
    [port]. *)
Definition is_highest_set_bit (port bit : Z) : Prop :=
  Z.testbit port bit = true
  /\ forall j, bit < j -> Z.testbit port j = false.

Definition is_lowest_set_bit (port bit : Z) : Prop :=
  Z.testbit port bit = true
  /\ forall j, 0 <= j < bit -> Z.testbit port j = false.

(** Inputs with the given touchpad rows and nothing else going on. *)
Definition inputs_with_rows (rows : list Z) : inputs :=
  mkInputs 0xff 0xff rows false (fun _ => 0xff).

(** The pending mask holds no bit besides those of the two sources. *)
Definition only_source_bits (active : Z) : Prop :=
  forall i, Z.testbit active i = true -> i = 0 \/ i = 3.

(** The sampled coordinates are those of [machine_start] or entries of the
    two tables. *)
Definition sampled_from_tables (s : segaai_state) : Prop :=
  touchpad_view s = (0, 0)
  \/ (In (m_touchpad_x s) tp_x /\ In (m_touchpad_y s) tp_y).

(** Bits 3 to 7 of the port B latch as [machine_start] sets them. *)
Definition portb_upper_bits (portb : Z) : Prop :=
  Z.testbit portb 3 = true /\ Z.testbit portb 4 = true
  /\ Z.testbit portb 5 = true /\ Z.testbit portb 6 = true
  /\ Z.testbit portb 7 = false.

(** ** Example states *)

(** The two line levels as numbers, to run the driver on examples. *)
Definition example_CLEAR_LINE : Z := 0.
Definition example_ASSERT_LINE : Z := 1.

(** The state that [machine_start] leaves, with the line cleared and nothing
    forwarded yet. *)
Definition started : segaai_state :=
  mkState 0x7f 0 0 0 0 example_CLEAR_LINE example_CLEAR_LINE 0 0 0 0 0
    example_CLEAR_LINE [].

(** Both sources pending and enabled, the line asserted. *)
Definition both_requesting : segaai_state :=
  mkState 0x7f 0 0 0 0 example_ASSERT_LINE example_ASSERT_LINE 0 0 0x09 0x09 0
    example_ASSERT_LINE [].

(** Only bit 1, which belongs to no implemented source, pending and
    enabled. *)
Definition unknown_requesting : segaai_state :=
  mkState 0x7f 0 0 0 0 example_CLEAR_LINE example_CLEAR_LINE 0 0 0x02 0x02 0
    example_CLEAR_LINE [].

(** Bits 0 and 1 of row 0 touched. *)
Definition two_cells_in_row_0 : inputs :=
  inputs_with_rows (3 :: repeat 0 19).

(** Bits 1 and 2 of row 2 touched, and a cell further down. *)
Definition cells_in_rows_2_and_5 : inputs :=
  inputs_with_rows ([0; 0; 6; 0; 0; 1] ++ repeat 0 14).

(** A row with a stray bit 24, an empty row, and bits 1 and 2 of row 2. *)
Definition stray_bit_in_row_0 : inputs :=
  inputs_with_rows ([0x1000000; 0; 6] ++ repeat 0 17).

(** The speech chip asks for data while the video chip has raised its
    interrupt. *)
Definition both_edges : list (inputs * event) :=
  [ (inputs_with_rows [], Ev_vdp_interrupt 1);
    (inputs_with_rows [], Ev_upd7759_drq_w 0) ].

(** Scanning is switched on, port B is read while cells are touched, and
    the Y coordinate is selected. *)
Definition scan_and_select_y : list (inputs * event) :=
  [ (cells_in_rows_2_and_5, Ev_io_write 0x1D 0x01);
    (cells_in_rows_2_and_5, Ev_i8255_portb_r);
    (cells_in_rows_2_and_5, Ev_io_write 0x1C 0x01) ].

(** * Properties *)

(** ** Bits of truncated values *)

Lemma u8_range (x : Z) : is_u8 (u8 x).
Proof. unfold is_u8, u8. apply Z.mod_pos_bound. lia. Qed.

Lemma u8_small (x : Z) : is_u8 x -> u8 x = x.
Proof. unfold is_u8, u8. intros H. apply Z.mod_small. exact H. Qed.

Lemma u8_testbit (x i : Z) :
  Z.testbit (u8 x) i = (i <? 8) && Z.testbit x i.
Proof.
  unfold u8. change 256 with (2 ^ 8).
  destruct (Z.ltb_spec i 8) as [Hlt | Hge]; cbn [andb].
  - destruct (Z.le_gt_cases 0 i) as [Hpos | Hneg].
    + apply Z.mod_pow2_bits_low. lia.
    + rewrite !Z.testbit_neg_r by lia. reflexivity.
  - apply Z.mod_pow2_bits_high. lia.
Qed.

Lemma is_u8_testbit_high (x i : Z) :
  is_u8 x -> 8 <= i -> Z.testbit x i = false.
Proof.
  intros Hx Hi. rewrite <- (u8_small x Hx), u8_testbit.
  destruct (Z.ltb_spec i 8); [lia | reflexivity].
Qed.

Lemma land_pow2 (x k : Z) :
  0 <= k -> Z.land x (2 ^ k) = if Z.testbit x k then 2 ^ k else 0.
Proof.
  intros Hk. apply Z.bits_inj'. intros m Hm.
  rewrite Z.land_spec, Z.pow2_bits_eqb by exact Hk.
  destruct (Z.eqb_spec k m) as [-> | Hne].
  - destruct (Z.testbit x m); cbn [andb].
    + rewrite Z.pow2_bits_eqb, Z.eqb_refl by exact Hm. reflexivity.
    + rewrite Z.bits_0. reflexivity.
  - rewrite andb_false_r.
    destruct (Z.testbit x k).
    + rewrite Z.pow2_bits_eqb by exact Hk.
      symmetry. apply Z.eqb_neq. exact Hne.
    + rewrite Z.bits_0. reflexivity.
Qed.

Lemma truthy_land_pow2 (x k : Z) :
  0 <= k -> truthy (Z.land x (2 ^ k)) = Z.testbit x k.
Proof.
  intros Hk. rewrite land_pow2 by exact Hk. unfold truthy.
  destruct (Z.testbit x k).
  - assert (0 < 2 ^ k) by (apply Z.pow_pos_nonneg; lia).
    destruct (Z.eqb_spec (2 ^ k) 0); [lia | reflexivity].
  - reflexivity.
Qed.

Lemma pending_v9938 (s : segaai_state) :
  pending s IRQ_V9938 = Z.testbit (m_irq_active s) 0.
Proof. apply (truthy_land_pow2 _ 0). lia. Qed.

Lemma pending_upd7759 (s : segaai_state) :
  pending s IRQ_UPD7759 = Z.testbit (m_irq_active s) 3.
Proof. apply (truthy_land_pow2 _ 3). lia. Qed.

Lemma requesting_v9938 (s : segaai_state) :
  requesting s IRQ_V9938
  = Z.testbit (m_irq_active s) 0 && Z.testbit (m_irq_enabled s) 0.
Proof.
  unfold requesting. rewrite (truthy_land_pow2 _ 0) by lia.
  apply Z.land_spec.
Qed.

Lemma requesting_upd7759 (s : segaai_state) :
  requesting s IRQ_UPD7759
  = Z.testbit (m_irq_active s) 3 && Z.testbit (m_irq_enabled s) 3.
Proof.
  unfold requesting. rewrite (truthy_land_pow2 _ 3) by lia.
  apply Z.land_spec.
Qed.

(** ** Acknowledge *)

Lemma irq_callback_v9938 (s : segaai_state) :
  requesting s IRQ_V9938 = true ->
  irq_callback s
  = Ok (VECTOR_V9938,
        update_irq_state
          (set_vector
             (set_irq_active s
                (u8 (Z.land (m_irq_active s) (Z.lnot IRQ_V9938))))
             VECTOR_V9938)).
Proof.
  unfold requesting, irq_callback. intros ->. reflexivity.
Qed.

Lemma irq_callback_upd7759 (s : segaai_state) :
  requesting s IRQ_V9938 = false ->
  requesting s IRQ_UPD7759 = true ->
  irq_callback s
  = Ok (VECTOR_UPD7759,
        update_irq_state
          (set_vector
             (set_irq_active s
                (u8 (Z.land (m_irq_active s) (Z.lnot IRQ_UPD7759))))
             VECTOR_UPD7759)).
Proof.
  unfold requesting, irq_callback. intros -> ->. reflexivity.
Qed.

Lemma irq_callback_fatal (s : segaai_state) :
  requesting s IRQ_V9938 = false ->
  requesting s IRQ_UPD7759 = false ->
  irq_callback s
  = Fatalerror
      (if truthy (Z.land (m_irq_active s) (m_irq_enabled s))
       then msg_unknown_irq else msg_no_irq)
      [m_irq_active s; m_irq_enabled s].
Proof.
  unfold requesting, irq_callback, fatalerror. intros -> ->.
  destruct (truthy (Z.land (m_irq_active s) (m_irq_enabled s)));
    reflexivity.
Qed.

(** Clearing bit [k] of a [u8] value the way the driver does. *)
Lemma clear_bit_testbit_any (a k i : Z) :
  0 <= k ->
  Z.testbit (u8 (Z.land a (Z.lnot (2 ^ k)))) i
  = (i <? 8) && (negb (i =? k) && Z.testbit a i).
Proof.
  intros Hk. rewrite u8_testbit. f_equal.
  destruct (Z.le_gt_cases 0 i) as [Hpos | Hneg].
  - rewrite Z.land_spec, Z.lnot_spec, Z.pow2_bits_eqb by lia.
    rewrite (Z.eqb_sym k i). apply andb_comm.
  - rewrite !Z.testbit_neg_r by lia. apply eq_sym, andb_false_r.
Qed.

Lemma clear_bit_testbit (a k i : Z) :
  0 <= k -> is_u8 a ->
  Z.testbit (u8 (Z.land a (Z.lnot (2 ^ k)))) i
  = negb (i =? k) && Z.testbit a i.
Proof.
  intros Hk Ha. rewrite clear_bit_testbit_any by exact Hk.
  destruct (Z.ltb_spec i 8) as [Hlt | Hge]; cbn [andb]; [reflexivity | ].
  rewrite (is_u8_testbit_high a i Ha Hge). apply eq_sym, andb_false_r.
Qed.

(** C2: when both sources are pending and enabled, [irq_callback] returns
    the video chip's vector 0xF8 and clears the video chip's pending bit
    and no other; the enable mask is untouched, and the next
    [irq_callback] returns the speech chip's vector 0xFB and clears that
    source's pending bit. *)
Theorem C2_video_vector_before_speech_vector (s : segaai_state) :
  is_u8 (m_irq_active s) ->
  requesting s IRQ_V9938 = true ->
  requesting s IRQ_UPD7759 = true ->
  exists s1 s2,
    irq_callback s = Ok (0xF8, s1)
    /\ (forall i, Z.testbit (m_irq_active s1) i
                  = negb (i =? 0) && Z.testbit (m_irq_active s) i)
    /\ pending s1 IRQ_UPD7759 = true
    /\ m_irq_enabled s1 = m_irq_enabled s
    /\ m_vector s1 = 0xF8
    /\ irq_callback s1 = Ok (0xFB, s2)
    /\ (forall i, Z.testbit (m_irq_active s2) i
                  = negb (i =? 3) && Z.testbit (m_irq_active s1) i)
    /\ m_vector s2 = 0xFB.
Proof.
  intros Hu8 Hv Hu.
  pose proof (irq_callback_v9938 s Hv) as E1.
  set (s1 := update_irq_state
               (set_vector
                  (set_irq_active s
                     (u8 (Z.land (m_irq_active s) (Z.lnot IRQ_V9938))))
                  VECTOR_V9938)) in *.
  assert (Hbits1 : forall i, Z.testbit (m_irq_active s1) i
                             = negb (i =? 0) && Z.testbit (m_irq_active s) i).
  { intros i. apply (clear_bit_testbit (m_irq_active s) 0 i); [lia | exact Hu8]. }
  assert (He1 : m_irq_enabled s1 = m_irq_enabled s) by reflexivity.
  rewrite requesting_v9938 in Hv. rewrite requesting_upd7759 in Hu.
  apply andb_prop in Hv, Hu. destruct Hv as [Hv0 He0], Hu as [Hu3 He3].
  assert (Hv1 : requesting s1 IRQ_V9938 = false).
  { rewrite requesting_v9938, Hbits1. reflexivity. }
  assert (Hu1 : requesting s1 IRQ_UPD7759 = true).
  { rewrite requesting_upd7759, Hbits1, He1, Hu3, He3. reflexivity. }
  pose proof (irq_callback_upd7759 s1 Hv1 Hu1) as E2.
  set (s2 := update_irq_state
               (set_vector
                  (set_irq_active s1
                     (u8 (Z.land (m_irq_active s1) (Z.lnot IRQ_UPD7759))))
                  VECTOR_UPD7759)) in *.
  exists s1, s2. repeat split; try assumption; try reflexivity.
  - rewrite pending_upd7759, Hbits1, Hu3. reflexivity.
  - intros i.
    apply (clear_bit_testbit (m_irq_active s1) 3 i); [lia | apply u8_range].
Qed.

(** C5: when neither the video chip nor the speech chip is both pending
    and enabled, [irq_callback] ends in [fatalerror] with the pending and
    the enabled mask as the arguments of the diagnostic, which is the
    unknown-source message when some other bit is pending and enabled and
    the nothing-active message otherwise; it returns no vector. *)
Theorem C5_acknowledge_without_source_is_fatal (s : segaai_state) :
  requesting s IRQ_V9938 = false ->
  requesting s IRQ_UPD7759 = false ->
  irq_callback s
  = Fatalerror
      (if truthy (Z.land (m_irq_active s) (m_irq_enabled s))
       then msg_unknown_irq else msg_no_irq)
      [m_irq_active s; m_irq_enabled s]
  /\ (forall vector s', irq_callback s <> Ok (vector, s'))
  /\ (forall inp, step inp s Ev_irq_callback
                  = Fatalerror
                      (if truthy (Z.land (m_irq_active s) (m_irq_enabled s))
                       then msg_unknown_irq else msg_no_irq)
                      [m_irq_active s; m_irq_enabled s]).
Proof.
  intros Hv Hu. pose proof (irq_callback_fatal s Hv Hu) as E.
  split; [exact E | split].
  - intros vector s'. rewrite E. discriminate.
  - intros inp. cbn [step]. rewrite E. reflexivity.
Qed.

(** ** Edge latch *)

(** Setting bit [k] of a [u8] value the way the driver does. *)
Lemma set_bit_testbit (a k i : Z) :
  0 <= k < 8 ->
  Z.testbit (u8 (Z.lor a (2 ^ k))) i
  = (i <? 8) && (Z.testbit a i || (i =? k)).
Proof.
  intros Hk. rewrite u8_testbit.
  destruct (Z.ltb_spec i 8) as [Hlt | Hge]; cbn [andb]; [ | reflexivity].
  destruct (Z.le_gt_cases 0 i) as [Hpos | Hneg].
  - rewrite Z.lor_spec, Z.pow2_bits_eqb by lia.
    rewrite (Z.eqb_sym k i). reflexivity.
  - rewrite !Z.testbit_neg_r by lia.
    destruct (Z.eqb_spec i k); [lia | reflexivity].
Qed.

Lemma vdp_interrupt_active (s : segaai_state) (state : Z) :
  m_irq_active (vdp_interrupt s state)
  = if negb (state =? CLEAR_LINE) && (m_prev_v9938_irq s =? CLEAR_LINE)
    then u8 (Z.lor (m_irq_active s) IRQ_V9938)
    else m_irq_active s.
Proof.
  unfold vdp_interrupt.
  destruct (state =? CLEAR_LINE), (m_prev_v9938_irq s =? CLEAR_LINE);
    reflexivity.
Qed.

Lemma upd7759_drq_w_active (s : segaai_state) (state : Z) :
  m_irq_active (upd7759_drq_w s state)
  = if negb (upd7759_irq_level state =? CLEAR_LINE)
       && (m_prev_upd7759_irq s =? CLEAR_LINE)
    then u8 (Z.lor (m_irq_active s) IRQ_UPD7759)
    else m_irq_active s.
Proof.
  unfold upd7759_drq_w.
  destruct (upd7759_irq_level state =? CLEAR_LINE),
           (m_prev_upd7759_irq s =? CLEAR_LINE);
    reflexivity.
Qed.

Lemma vdp_interrupt_prev (s : segaai_state) (state : Z) :
  m_prev_v9938_irq (vdp_interrupt s state) = state
  /\ m_prev_upd7759_irq (vdp_interrupt s state) = m_prev_upd7759_irq s.
Proof.
  unfold vdp_interrupt.
  destruct (state =? CLEAR_LINE), (m_prev_v9938_irq s =? CLEAR_LINE);
    split; reflexivity.
Qed.

Lemma upd7759_drq_w_prev (s : segaai_state) (state : Z) :
  m_prev_upd7759_irq (upd7759_drq_w s state) = upd7759_irq_level state
  /\ m_prev_v9938_irq (upd7759_drq_w s state) = m_prev_v9938_irq s.
Proof.
  unfold upd7759_drq_w.
  destruct (upd7759_irq_level state =? CLEAR_LINE),
           (m_prev_upd7759_irq s =? CLEAR_LINE);
    split; reflexivity.
Qed.

(** Bit [i] of the pending mask, for the two source bits. *)
Lemma pending_irq_bit (s : segaai_state) (src : source) :
  pending s (irq_bit src)
  = Z.testbit (m_irq_active s)
      (match src with Src_v9938 => 0 | Src_upd7759 => 3 end).
Proof. destruct src; [apply pending_v9938 | apply pending_upd7759]. Qed.

Lemma vdp_interrupt_pending (s : segaai_state) (state : Z) (src : source) :
  pending (vdp_interrupt s state) (irq_bit src)
  = pending s (irq_bit src)
    || match src with
       | Src_v9938 =>
           negb (state =? CLEAR_LINE) && (m_prev_v9938_irq s =? CLEAR_LINE)
       | Src_upd7759 => false
       end.
Proof.
  rewrite !pending_irq_bit, vdp_interrupt_active.
  destruct (negb (state =? CLEAR_LINE) && (m_prev_v9938_irq s =? CLEAR_LINE)).
  - change IRQ_V9938 with (2 ^ 0). rewrite set_bit_testbit by lia.
    destruct src; cbn; reflexivity.
  - destruct src; apply eq_sym, orb_false_r.
Qed.

Lemma upd7759_drq_w_pending (s : segaai_state) (state : Z) (src : source) :
  pending (upd7759_drq_w s state) (irq_bit src)
  = pending s (irq_bit src)
    || match src with
       | Src_v9938 => false
       | Src_upd7759 =>
           negb (upd7759_irq_level state =? CLEAR_LINE)
           && (m_prev_upd7759_irq s =? CLEAR_LINE)
       end.
Proof.
  rewrite !pending_irq_bit, upd7759_drq_w_active.
  destruct (negb (upd7759_irq_level state =? CLEAR_LINE)
            && (m_prev_upd7759_irq s =? CLEAR_LINE)).
  - change IRQ_UPD7759 with (2 ^ 3). rewrite set_bit_testbit by lia.
    destruct src; cbn; reflexivity.
  - destruct src; apply eq_sym, orb_false_r.
Qed.

(** ** What the register accesses leave alone *)

Lemma do_write_views (h : write_handler) (offset data : Z) (s : segaai_state) :
  latch_view (do_write h offset data s) = latch_view s
  /\ touchpad_view (do_write h offset data s) = touchpad_view s.
Proof.
  destruct h; cbn [do_write]; try (split; reflexivity).
  unfold irq_select_w. destruct (truthy (Z.land data 1)); split; reflexivity.
Qed.

Lemma io_write_views (addr data : Z) (s : segaai_state) :
  latch_view (io_write addr data s) = latch_view s
  /\ touchpad_view (io_write addr data s) = touchpad_view s.
Proof.
  unfold io_write. destruct (write_window addr) as [e | ]; [ | split; reflexivity].
  destruct (e_write e) as [h | ]; [apply do_write_views | split; reflexivity].
Qed.

Lemma do_read_views (inp : inputs) (h : read_handler) (offset : Z)
    (s : segaai_state) :
  latch_view (snd (do_read inp h offset s)) = latch_view s
  /\ touchpad_view (snd (do_read inp h offset s)) = touchpad_view s
  /\ m_irq_enabled (snd (do_read inp h offset s)) = m_irq_enabled s.
Proof. destruct h; repeat split; reflexivity. Qed.

Lemma io_read_views (inp : inputs) (addr : Z) (s : segaai_state) :
  latch_view (snd (io_read inp addr s)) = latch_view s
  /\ touchpad_view (snd (io_read inp addr s)) = touchpad_view s
  /\ m_irq_enabled (snd (io_read inp addr s)) = m_irq_enabled s.
Proof.
  unfold io_read.
  destruct (read_window addr) as [e | ]; [ | repeat split; reflexivity].
  destruct (e_read e) as [h | ]; [apply do_read_views | repeat split; reflexivity].
Qed.

(** ** Touchpad scan *)

(** A scan touches nothing but the sampled coordinates, finds the same
    thing whatever the state, and leaves the state alone when it finds
    nothing. *)
Lemma scan_rows_frame (todo : nat) :
  forall (row : nat) (inp : inputs) (s : segaai_state),
    latch_view (snd (scan_rows todo row inp s)) = latch_view s
    /\ m_irq_enabled (snd (scan_rows todo row inp s)) = m_irq_enabled s
    /\ m_i8255_portb (snd (scan_rows todo row inp s)) = m_i8255_portb s
    /\ (fst (scan_rows todo row inp s) = false ->
        snd (scan_rows todo row inp s) = s)
    /\ (forall s0, fst (scan_rows todo row inp s0)
                   = fst (scan_rows todo row inp s)).
Proof.
  induction todo as [ | todo IH]; intros row inp s; cbn [scan_rows].
  - repeat split; reflexivity.
  - destruct (truthy (nth row (m_port_tp inp) 0)); [ | apply IH].
    destruct ((0 <=? shift_out (nth row (m_port_tp inp) 0) (-1))
              && (shift_out (nth row (m_port_tp inp) 0) (-1)
                  <? Z.of_nat (length tp_x))); [ | apply IH].
    cbn [fst snd]. repeat split; try reflexivity. discriminate.
Qed.

Lemma i8255_portb_r_views (inp : inputs) (s : segaai_state) :
  latch_view (snd (i8255_portb_r inp s)) = latch_view s
  /\ m_irq_enabled (snd (i8255_portb_r inp s)) = m_irq_enabled s.
Proof.
  unfold i8255_portb_r. cbn [m_port_1d set_i8255_portb].
  destruct (truthy (Z.land (m_port_1d s) 1)); [ | split; reflexivity].
  unfold get_touchpad_pressed.
  set (s1 := set_i8255_portb s _).
  destruct (scan_rows_frame TOUCHPAD_ROWS 0 inp s1) as (Hl & He & _).
  destruct (scan_rows TOUCHPAD_ROWS 0 inp s1) as [pressed s1'].
  cbn [snd] in *. destruct pressed; cbn [negb]; split; assumption.
Qed.

(** ** Pending bits along a run *)

Lemma irq_callback_inv (s : segaai_state) (vector : Z) (s' : segaai_state) :
  irq_callback s = Ok (vector, s') ->
  exists src,
    requesting s (irq_bit src) = true
    /\ vector = irq_vector src
    /\ m_irq_active s' = u8 (Z.land (m_irq_active s) (Z.lnot (irq_bit src)))
    /\ m_irq_enabled s' = m_irq_enabled s
    /\ (src = Src_upd7759 -> requesting s IRQ_V9938 = false).
Proof.
  intros E.
  destruct (requesting s IRQ_V9938) eqn:Hv.
  - rewrite (irq_callback_v9938 s Hv) in E. injection E as <- <-.
    exists Src_v9938. repeat split; try assumption. discriminate.
  - destruct (requesting s IRQ_UPD7759) eqn:Hu.
    + rewrite (irq_callback_upd7759 s Hv Hu) in E. injection E as <- <-.
      exists Src_upd7759. repeat split; assumption.
    + rewrite (irq_callback_fatal s Hv Hu) in E. discriminate.
Qed.

Lemma upd7759_busy_w_id (s : segaai_state) (state : Z) :
  upd7759_busy_w s state = s.
Proof.
  unfold upd7759_busy_w.
  destruct (negb (truthy (Z.land (m_upd7759_ctrl s) 1))); reflexivity.
Qed.

(** Every call other than the two edge callbacks and the acknowledge leaves
    the pending mask as it is. *)
Lemma step_active_unchanged (inp : inputs) (s : segaai_state) (e : event)
    (out : option Z) (s' : segaai_state) :
  step inp s e = Ok (out, s') ->
  (forall state, e <> Ev_vdp_interrupt state) ->
  (forall state, e <> Ev_upd7759_drq_w state) ->
  e <> Ev_irq_callback ->
  m_irq_active s' = m_irq_active s.
Proof.
  intros E Hv Hd Ha. destruct e as [st | st | st | | | | | d | a | a d];
    cbn [step] in E.
  - elim (Hv st). reflexivity.
  - elim (Hd st). reflexivity.
  - injection E as _ <-. rewrite upd7759_busy_w_id. reflexivity.
  - elim Ha. reflexivity.
  - injection E as _ <-. reflexivity.
  - destruct (i8255_portb_r_views inp s) as [Hl _].
    destruct (i8255_portb_r inp s) as [data s1]. injection E as _ <-.
    cbn [snd] in Hl. injection Hl as H _ _ _ _. exact H.
  - injection E as _ <-. reflexivity.
  - injection E as _ <-. reflexivity.
  - destruct (io_read_views inp a s) as [Hl _].
    destruct (io_read inp a s) as [data s1]. injection E as _ <-.
    cbn [snd] in Hl. injection Hl as H _ _ _ _. exact H.
  - injection E as _ <-.
    destruct (io_write_views a d s) as [Hl _].
    injection Hl as H _ _ _ _. exact H.
Qed.

(** A pending bit that is set before a call and clear after it: the call
    was an acknowledge, and it returned that source's vector. *)
Lemma step_clears_pending (src : source) (inp : inputs) (s : segaai_state)
    (e : event) (out : option Z) (s' : segaai_state) :
  step inp s e = Ok (out, s') ->
  pending s (irq_bit src) = true ->
  pending s' (irq_bit src) = false ->
  e = Ev_irq_callback /\ out = Some (irq_vector src).
Proof.
  intros E Hset Hclr.
  destruct e as [st | st | st | | | | | d | a | a d];
    try (rewrite (step_active_unchanged inp s _ out s' E) in Hclr
           by (intros; discriminate);
         unfold pending in Hset, Hclr; congruence);
    try (unfold pending in Hset, Hclr;
         rewrite (step_active_unchanged inp s _ out s' E) in Hclr
           by (intros; discriminate); congruence).
  - cbn [step] in E. injection E as _ <-.
    rewrite vdp_interrupt_pending, Hset in Hclr. discriminate.
  - cbn [step] in E. injection E as _ <-.
    rewrite upd7759_drq_w_pending, Hset in Hclr. discriminate.
  - split; [reflexivity | ].
    cbn [step] in E. destruct (irq_callback s) as [[vector s1] | ] eqn:Ecb;
      [ | discriminate].
    injection E as <- <-.
    destruct (irq_callback_inv s vector s1 Ecb) as (src' & _ & -> & Hact & _).
    destruct src, src'; try reflexivity; exfalso;
      rewrite pending_irq_bit in Hset, Hclr; rewrite Hact in Hclr; cbn [irq_bit] in Hclr.
    + change IRQ_UPD7759 with (2 ^ 3) in Hclr.
      rewrite clear_bit_testbit_any, Hset in Hclr by lia. discriminate.
    + change IRQ_V9938 with (2 ^ 0) in Hclr.
      rewrite clear_bit_testbit_any, Hset in Hclr by lia. discriminate.
Qed.

(** The acknowledge that returns a source's vector clears its pending bit. *)
Lemma irq_callback_clears (src : source) (s : segaai_state)
    (s' : segaai_state) :
  irq_callback s = Ok (irq_vector src, s') ->
  pending s' (irq_bit src) = false.
Proof.
  intros E.
  destruct (irq_callback_inv s _ s' E) as (src' & _ & Hvec & Hact & _).
  assert (src' = src) as -> by (destruct src, src'; cbv in Hvec; congruence).
  rewrite pending_irq_bit, Hact.
  destruct src; cbn [irq_bit].
  - change IRQ_V9938 with (2 ^ 0). rewrite clear_bit_testbit_any by lia.
    reflexivity.
  - change IRQ_UPD7759 with (2 ^ 3). rewrite clear_bit_testbit_any by lia.
    reflexivity.
Qed.

Lemma run_keeps_pending (src : source) (calls : list (inputs * event)) :
  forall (s : segaai_state) (outs : list (event * option Z))
         (s' : segaai_state),
    run s calls = Ok (outs, s') ->
    pending s (irq_bit src) = true ->
    ~ In (Ev_irq_callback, Some (irq_vector src)) outs ->
    pending s' (irq_bit src) = true.
Proof.
  induction calls as [ | [inp e] rest IH]; intros s outs s' E Hset Hno;
    cbn [run] in E.
  - injection E as _ <-. exact Hset.
  - destruct (step inp s e) as [[out s1] | ] eqn:Estep; [ | discriminate].
    destruct (run s1 rest) as [[outs1 s2] | ] eqn:Erun; [ | discriminate].
    injection E as <- <-.
    apply (IH s1 outs1 s2 Erun).
    + destruct (pending s1 (irq_bit src)) eqn:H1; [reflexivity | ].
      destruct (step_clears_pending src inp s e out s1 Estep Hset H1)
        as [-> ->].
      elim Hno. left. reflexivity.
    + intros Hin. apply Hno. right. exact Hin.
Qed.

(** ** The remembered signal levels along a run *)

Lemma irq_callback_prev (s : segaai_state) (vector : Z) (s' : segaai_state) :
  irq_callback s = Ok (vector, s') ->
  m_prev_v9938_irq s' = m_prev_v9938_irq s
  /\ m_prev_upd7759_irq s' = m_prev_upd7759_irq s.
Proof.
  intros E.
  destruct (requesting s IRQ_V9938) eqn:Hv.
  - rewrite (irq_callback_v9938 s Hv) in E. injection E as _ <-.
    split; reflexivity.
  - destruct (requesting s IRQ_UPD7759) eqn:Hu.
    + rewrite (irq_callback_upd7759 s Hv Hu) in E. injection E as _ <-.
      split; reflexivity.
    + rewrite (irq_callback_fatal s Hv Hu) in E. discriminate.
Qed.

(** Only a source's own edge callback changes its remembered level. *)
Lemma step_prev_unchanged (inp : inputs) (s : segaai_state) (e : event)
    (out : option Z) (s' : segaai_state) :
  step inp s e = Ok (out, s') ->
  ((forall state, e <> Ev_vdp_interrupt state) ->
   m_prev_v9938_irq s' = m_prev_v9938_irq s)
  /\ ((forall state, e <> Ev_upd7759_drq_w state) ->
      m_prev_upd7759_irq s' = m_prev_upd7759_irq s).
Proof.
  intros E. destruct e as [st | st | st | | | | | d | a | a d];
    cbn [step] in E.
  - injection E as _ <-. split; intros H.
    + elim (H st). reflexivity.
    + apply vdp_interrupt_prev.
  - injection E as _ <-. split; intros H.
    + apply upd7759_drq_w_prev.
    + elim (H st). reflexivity.
  - injection E as _ <-. rewrite upd7759_busy_w_id. split; reflexivity.
  - destruct (irq_callback s) as [[vector s1] | ] eqn:Ecb; [ | discriminate].
    injection E as _ <-.
    destruct (irq_callback_prev s vector s1 Ecb) as [H1 H2].
    split; intros _; assumption.
  - injection E as _ <-. split; reflexivity.
  - destruct (i8255_portb_r_views inp s) as [Hl _].
    destruct (i8255_portb_r inp s) as [data s1]. injection E as _ <-.
    cbn [snd] in Hl. injection Hl as _ H1 H2 _ _. split; intros _; assumption.
  - injection E as _ <-. split; reflexivity.
  - injection E as _ <-. split; reflexivity.
  - destruct (io_read_views inp a s) as [Hl _].
    destruct (io_read inp a s) as [data s1]. injection E as _ <-.
    cbn [snd] in Hl. injection Hl as _ H1 H2 _ _. split; intros _; assumption.
  - injection E as _ <-.
    destruct (io_write_views a d s) as [Hl _].
    injection Hl as _ H1 H2 _ _. split; intros _; assumption.
Qed.

Lemma run_prev_unchanged (calls : list (inputs * event)) :
  forall (s : segaai_state) (outs : list (event * option Z))
         (s' : segaai_state),
    run s calls = Ok (outs, s') ->
    ((forall inp state, ~ In (inp, Ev_vdp_interrupt state) calls) ->
     m_prev_v9938_irq s' = m_prev_v9938_irq s)
    /\ ((forall inp state, ~ In (inp, Ev_upd7759_drq_w state) calls) ->
        m_prev_upd7759_irq s' = m_prev_upd7759_irq s).
Proof.
  induction calls as [ | [inp e] rest IH]; intros s outs s' E; cbn [run] in E.
  - injection E as _ <-. split; reflexivity.
  - destruct (step inp s e) as [[out s1] | ] eqn:Estep; [ | discriminate].
    destruct (run s1 rest) as [[outs1 s2] | ] eqn:Erun; [ | discriminate].
    injection E as _ <-.
    destruct (IH s1 outs1 s2 Erun) as [IHv IHu].
    destruct (step_prev_unchanged inp s e out s1 Estep) as [Sv Su].
    split; intros Hno.
    + rewrite IHv, Sv; [reflexivity | | ].
      * intros st ->. apply (Hno inp st). left. reflexivity.
      * intros inp' st Hin. apply (Hno inp' st). right. exact Hin.
    + rewrite IHu, Su; [reflexivity | | ].
      * intros st ->. apply (Hno inp st). left. reflexivity.
      * intros inp' st Hin. apply (Hno inp' st). right. exact Hin.
Qed.

(** C3: an edge callback sets its source's pending bit exactly when the
    level it brings is asserted and the level remembered from the source's
    previous callback is not, and it then remembers the new level, so an
    asserted level that is held over further callbacks of the source sets
    nothing more; a pending bit that is set stays set over every call of
    the driver (signal edges in either direction, register accesses,
    acknowledges of the other source) and is clear after a call only when
    that call is the acknowledge that returns the source's own vector, which
    does clear it. *)
Theorem C3_pending_bit_set_on_rising_edge_and_sticky :
  (forall s state,
      pending (vdp_interrupt s state) IRQ_V9938
      = pending s IRQ_V9938
        || (negb (state =? CLEAR_LINE) && (m_prev_v9938_irq s =? CLEAR_LINE)))
  /\ (forall s state, m_prev_v9938_irq (vdp_interrupt s state) = state)
  /\ (forall s state,
         pending (upd7759_drq_w s state) IRQ_UPD7759
         = pending s IRQ_UPD7759
           || (negb (upd7759_irq_level state =? CLEAR_LINE)
               && (m_prev_upd7759_irq s =? CLEAR_LINE)))
  /\ (forall s state,
         m_prev_upd7759_irq (upd7759_drq_w s state) = upd7759_irq_level state)
  /\ (forall s held calls outs s1 state,
         held <> CLEAR_LINE ->
         run (vdp_interrupt s held) calls = Ok (outs, s1) ->
         (forall inp st, ~ In (inp, Ev_vdp_interrupt st) calls) ->
         pending (vdp_interrupt s1 state) IRQ_V9938 = pending s1 IRQ_V9938)
  /\ (forall s held calls outs s1 state,
         upd7759_irq_level held <> CLEAR_LINE ->
         run (upd7759_drq_w s held) calls = Ok (outs, s1) ->
         (forall inp st, ~ In (inp, Ev_upd7759_drq_w st) calls) ->
         pending (upd7759_drq_w s1 state) IRQ_UPD7759
         = pending s1 IRQ_UPD7759)
  /\ (forall src inp s e out s',
         step inp s e = Ok (out, s') ->
         pending s (irq_bit src) = true ->
         pending s' (irq_bit src) = false ->
         e = Ev_irq_callback /\ out = Some (irq_vector src))
  /\ (forall src s s',
         irq_callback s = Ok (irq_vector src, s') ->
         pending s' (irq_bit src) = false)
  /\ (forall src s calls outs s',
         run s calls = Ok (outs, s') ->
         pending s (irq_bit src) = true ->
         ~ In (Ev_irq_callback, Some (irq_vector src)) outs ->
         pending s' (irq_bit src) = true).
Proof.
  split; [ | split; [ | split; [ | split; [ | split; [ | split;
    [ | split; [ | split]]]]]]].
  - intros s state. apply (vdp_interrupt_pending s state Src_v9938).
  - intros s state. apply vdp_interrupt_prev.
  - intros s state. apply (upd7759_drq_w_pending s state Src_upd7759).
  - intros s state. apply upd7759_drq_w_prev.
  - intros s held calls outs s1 state Hheld Erun Hno.
    pose proof (vdp_interrupt_pending s1 state Src_v9938) as E.
    cbn [irq_bit] in E. rewrite E.
    destruct (run_prev_unchanged calls _ outs s1 Erun) as [Hprev _].
    rewrite (Hprev Hno). destruct (vdp_interrupt_prev s held) as [-> _].
    destruct (Z.eqb_spec held CLEAR_LINE) as [Heq | _]; [contradiction | ].
    rewrite andb_false_r. apply orb_false_r.
  - intros s held calls outs s1 state Hheld Erun Hno.
    pose proof (upd7759_drq_w_pending s1 state Src_upd7759) as E.
    cbn [irq_bit] in E. rewrite E.
    destruct (run_prev_unchanged calls _ outs s1 Erun) as [_ Hprev].
    rewrite (Hprev Hno). destruct (upd7759_drq_w_prev s held) as [-> _].
    destruct (Z.eqb_spec (upd7759_irq_level held) CLEAR_LINE) as [Heq | _];
      [contradiction | ].
    rewrite andb_false_r. apply orb_false_r.
  - intros src inp s e out s'. apply step_clears_pending.
  - intros src s s'. apply irq_callback_clears.
  - intros src s calls outs s'. apply run_keeps_pending.
Qed.

(** C10: [upd7759_drq_w] turns a non-zero raw DRQ level into the cleared
    line level and a zero level into the asserted one before it looks for
    an edge, and remembers the level so turned; hence the speech chip's
    pending bit 0x08 is set by a callback exactly when the raw level is zero
    and the raw level of the previous DRQ callback was non-zero (after
    [machine_start] the previous level counts as non-zero), whatever the
    driver was asked in between; a callback with a non-zero raw level never
    changes the pending mask. *)
Theorem C10_speech_pending_set_on_falling_drq :
  (forall state,
      upd7759_irq_level state
      = if state =? 0 then ASSERT_LINE else CLEAR_LINE)
  /\ (forall s state,
         m_prev_upd7759_irq (upd7759_drq_w s state) = CLEAR_LINE
         <-> state <> 0)
  /\ (forall s state,
         pending (upd7759_drq_w s state) IRQ_UPD7759
         = pending s IRQ_UPD7759
           || ((state =? 0) && (m_prev_upd7759_irq s =? CLEAR_LINE)))
  /\ (forall s raw1 calls outs s1 raw2,
         run (upd7759_drq_w s raw1) calls = Ok (outs, s1) ->
         (forall inp st, ~ In (inp, Ev_upd7759_drq_w st) calls) ->
         pending (upd7759_drq_w s1 raw2) IRQ_UPD7759
         = pending s1 IRQ_UPD7759 || (negb (raw1 =? 0) && (raw2 =? 0)))
  /\ (forall s state,
         state <> 0 -> m_irq_active (upd7759_drq_w s state) = m_irq_active s)
  /\ (forall s0 state,
         pending (upd7759_drq_w (machine_start s0) state) IRQ_UPD7759
         = (state =? 0)).
Proof.
  assert (Hlevel : forall state,
             upd7759_irq_level state
             = if state =? 0 then ASSERT_LINE else CLEAR_LINE).
  { intros state. unfold upd7759_irq_level, truthy.
    destruct (state =? 0); reflexivity. }
  assert (Hclear : forall state,
             (upd7759_irq_level state =? CLEAR_LINE) = negb (state =? 0)).
  { intros state. rewrite Hlevel. destruct (state =? 0); cbn [negb].
    - apply Z.eqb_neq. intros H. apply line_levels_differ. symmetry. exact H.
    - apply Z.eqb_refl. }
  assert (Hpend : forall s state,
             pending (upd7759_drq_w s state) IRQ_UPD7759
             = pending s IRQ_UPD7759
               || ((state =? 0) && (m_prev_upd7759_irq s =? CLEAR_LINE))).
  { intros s state.
    pose proof (upd7759_drq_w_pending s state Src_upd7759) as E.
    cbn [irq_bit] in E. rewrite E, Hclear, negb_involutive. reflexivity. }
  split; [exact Hlevel | split; [ | split; [exact Hpend | split; [ | split]]]].
  - intros s state. destruct (upd7759_drq_w_prev s state) as [-> _].
    pose proof (Hclear state) as E.
    destruct (Z.eqb_spec (upd7759_irq_level state) CLEAR_LINE) as [Heq | Hne];
      destruct (Z.eqb_spec state 0) as [Hz | Hnz]; cbn [negb] in E;
      try discriminate; split; intros H; try assumption; contradiction.
  - intros s raw1 calls outs s1 raw2 Erun Hno.
    rewrite Hpend.
    destruct (run_prev_unchanged calls _ outs s1 Erun) as [_ Hprev].
    rewrite (Hprev Hno). destruct (upd7759_drq_w_prev s raw1) as [-> _].
    rewrite Hclear. f_equal. apply andb_comm.
  - intros s state Hnz. rewrite upd7759_drq_w_active, Hclear.
    destruct (Z.eqb_spec state 0) as [Hz | _]; [contradiction | reflexivity].
  - intros s0 state. rewrite Hpend. cbn [machine_start m_prev_upd7759_irq].
    rewrite Z.eqb_refl, andb_true_r. reflexivity.
Qed.

(** ** The CPU interrupt line *)

Lemma update_irq_state_line (s : segaai_state) :
  line_follows ASSERT_LINE (update_irq_state s).
Proof.
  unfold line_follows, update_irq_state, truthy.
  cbn [maincpu_line0 m_irq_active m_irq_enabled set_input_line0].
  destruct (Z.eqb_spec (Z.land (m_irq_active s) (m_irq_enabled s)) 0)
    as [Hz | Hnz]; cbn [negb]; split; intros H; try assumption;
    try reflexivity; contradiction.
Qed.

(** The two edge callbacks and the acknowledge finish with
    [update_irq_state], so the line follows the masks after them. *)
Lemma line_follows_after_edge_and_acknowledge (s : segaai_state) :
  (forall state, line_follows ASSERT_LINE (vdp_interrupt s state))
  /\ (forall state, line_follows ASSERT_LINE (upd7759_drq_w s state))
  /\ (forall vector s',
         irq_callback s = Ok (vector, s') -> line_follows ASSERT_LINE s').
Proof.
  split; [ | split].
  - intros state. unfold vdp_interrupt. apply update_irq_state_line.
  - intros state. unfold upd7759_drq_w. apply update_irq_state_line.
  - intros vector s' E.
    destruct (requesting s IRQ_V9938) eqn:Hv.
    + rewrite (irq_callback_v9938 s Hv) in E. injection E as _ <-.
      apply update_irq_state_line.
    + destruct (requesting s IRQ_UPD7759) eqn:Hu.
      * rewrite (irq_callback_upd7759 s Hv Hu) in E. injection E as _ <-.
        apply update_irq_state_line.
      * rewrite (irq_callback_fatal s Hv Hu) in E. discriminate.
Qed.

(** C1, at the input on which the driver departs from it: after
    [machine_start], one rising edge of the video chip's signal and then a
    write of 0x01 to port 0x16 (or of 0x01 to port 0x17), the video chip is
    pending and enabled, and the CPU interrupt line is still at the cleared
    level that the edge callback gave it while the source was disabled: the
    two register writes never touch the line. *)
Theorem C1_enable_write_leaves_line_stale (s0 : segaai_state) :
  let s := vdp_interrupt (machine_start s0) ASSERT_LINE in
  line_follows ASSERT_LINE s
  /\ (forall data, maincpu_line0 (io_write 0x16 data s) = maincpu_line0 s)
  /\ (forall data, maincpu_line0 (io_write 0x17 data s) = maincpu_line0 s)
  /\ Z.land (m_irq_active (io_write 0x16 0x01 s))
            (m_irq_enabled (io_write 0x16 0x01 s)) = 1
  /\ maincpu_line0 (io_write 0x16 0x01 s) = CLEAR_LINE
  /\ ~ line_follows ASSERT_LINE (io_write 0x16 0x01 s)
  /\ Z.land (m_irq_active (io_write 0x17 0x01 s))
            (m_irq_enabled (io_write 0x17 0x01 s)) = 1
  /\ maincpu_line0 (io_write 0x17 0x01 s) = CLEAR_LINE
  /\ ~ line_follows ASSERT_LINE (io_write 0x17 0x01 s).
Proof.
  intros s.
  assert (Hs : s = mkState 0x7f 0 0 0 0 ASSERT_LINE CLEAR_LINE 0 0 1 0 0
                     CLEAR_LINE (forwarded s0)).
  { unfold s, vdp_interrupt. cbn [machine_start m_prev_v9938_irq].
    rewrite Z.eqb_refl.
    destruct (Z.eqb_spec ASSERT_LINE CLEAR_LINE) as [Heq | _].
    - elim line_levels_differ. symmetry. exact Heq.
    - reflexivity. }
  split; [apply line_follows_after_edge_and_acknowledge | ].
  split; [intros data; destruct (io_write_views 0x16 data s) as [H _];
          exact (f_equal snd H) | ].
  split; [intros data; destruct (io_write_views 0x17 data s) as [H _];
          exact (f_equal snd H) | ].
  rewrite Hs. unfold line_follows.
  repeat split; try reflexivity.
  - intros [_ H]. apply line_levels_differ. apply H. discriminate.
  - intros [_ H]. apply line_levels_differ. apply H. discriminate.
Qed.

(** ** Enable and select registers *)

Lemma pin_range (data : Z) : 0 <= Z.land (Z.shiftr data 1) 0x07 < 8.
Proof.
  change 0x07 with (Z.ones 3). rewrite Z.land_ones by lia.
  apply Z.mod_pos_bound. lia.
Qed.

(** A write to port 0x17 gives bit [pin] of the enable register the value of
    bit 0 of the byte, and keeps the other seven bits. *)
Lemma irq_select_w_testbit (s : segaai_state) (data i : Z) :
  Z.testbit (m_irq_enabled (irq_select_w s data)) i
  = (i <? 8)
    && (if i =? Z.land (Z.shiftr data 1) 0x07
        then Z.testbit data 0
        else Z.testbit (m_irq_enabled s) i).
Proof.
  unfold irq_select_w.
  pose proof (pin_range data) as Hpin.
  set (pin := Z.land (Z.shiftr data 1) 0x07) in *.
  rewrite Z.shiftl_1_l.
  change (Z.land data 1) with (Z.land data (2 ^ 0)).
  rewrite truthy_land_pow2 by lia.
  destruct (Z.testbit data 0); cbn [m_irq_enabled set_irq_enabled].
  - rewrite set_bit_testbit by exact Hpin.
    destruct (i =? pin); [rewrite orb_true_r | rewrite orb_false_r];
      reflexivity.
  - rewrite clear_bit_testbit_any by lia.
    destruct (i =? pin); reflexivity.
Qed.

Lemma irq_select_w_u8 (s : segaai_state) (data : Z) :
  is_u8 (m_irq_enabled (irq_select_w s data)).
Proof.
  unfold irq_select_w. destruct (truthy (Z.land data 1)); apply u8_range.
Qed.

Lemma select_byte_decode (m pin : Z) :
  0 <= pin < 8 ->
  Z.land (Z.shiftr (select_byte m pin) 1) 0x07 = pin
  /\ Z.testbit (select_byte m pin) 0 = Z.testbit m pin.
Proof.
  intros Hpin. unfold select_byte. split.
  - rewrite Z.shiftr_div_pow2 by lia. change (2 ^ 1) with 2.
    replace ((2 * pin + Z.b2z (Z.testbit m pin)) / 2) with pin.
    + change 0x07 with (Z.ones 3). rewrite Z.land_ones by lia.
      apply Z.mod_small. change (2 ^ 3) with 8. exact Hpin.
    + apply Z.div_unique with (r := Z.b2z (Z.testbit m pin));
        destruct (Z.testbit m pin); cbn [Z.b2z]; lia.
  - apply Z.testbit_0_r.
Qed.

(** The select writes for the pins of [pins], one after the other. *)
Lemma select_writes_testbit (m : Z) (pins : list Z) :
  forall (s : segaai_state) (i : Z),
    (forall p, In p pins -> 0 <= p < 8) ->
    0 <= i < 8 ->
    Z.testbit
      (m_irq_enabled
         (fold_left (fun st p => irq_select_w st (select_byte m p)) pins s)) i
    = if existsb (Z.eqb i) pins then Z.testbit m i
      else Z.testbit (m_irq_enabled s) i.
Proof.
  induction pins as [ | p rest IH]; intros s i Hpins Hi;
    cbn [fold_left existsb].
  - reflexivity.
  - rewrite IH by (try exact Hi; intros q Hq; apply Hpins; right; exact Hq).
    destruct (existsb (Z.eqb i) rest);
      [rewrite orb_true_r; reflexivity | ].
    rewrite orb_false_r, irq_select_w_testbit.
    destruct (select_byte_decode m p) as [-> ->];
      [apply Hpins; left; reflexivity | ].
    destruct (Z.ltb_spec i 8); [cbn [andb] | lia].
    destruct (Z.eqb_spec i p) as [-> | _]; reflexivity.
Qed.

Lemma select_writes_u8 (m : Z) (pins : list Z) :
  forall s : segaai_state,
    is_u8 (m_irq_enabled s) ->
    is_u8 (m_irq_enabled
             (fold_left (fun st p => irq_select_w st (select_byte m p))
                        pins s)).
Proof.
  induction pins as [ | p rest IH]; intros s Hs; cbn [fold_left].
  - exact Hs.
  - apply IH, irq_select_w_u8.
Qed.

Lemma select_writes_enabled (s : segaai_state) (m : Z) (pins : list Z) :
  is_u8 m ->
  (forall p, In p pins -> 0 <= p < 8) ->
  (forall p, 0 <= p < 8 -> In p pins) ->
  m_irq_enabled
    (fold_left (fun st p => irq_select_w st (select_byte m p)) pins s)
  = m.
Proof.
  intros Hm Hpins Hall.
  assert (Hu8 : is_u8 (m_irq_enabled
                         (fold_left
                            (fun st p => irq_select_w st (select_byte m p))
                            pins s))).
  { destruct pins as [ | p rest].
    - exfalso. apply (Hall 0). lia.
    - cbn [fold_left]. apply select_writes_u8, irq_select_w_u8. }
  apply Z.bits_inj'. intros i Hi.
  destruct (Z.lt_ge_cases i 8) as [Hlt | Hge].
  - rewrite select_writes_testbit by (try exact Hpins; lia).
    assert (Hex : existsb (Z.eqb i) pins = true).
    { apply existsb_exists. exists i. split; [apply Hall; lia | apply Z.eqb_refl]. }
    rewrite Hex. reflexivity.
  - rewrite (is_u8_testbit_high _ i Hu8 Hge), (is_u8_testbit_high m i Hm Hge).
    reflexivity.
Qed.

(** C4: a write to port 0x17 reads its byte as a pin index in bits 1 to 3
    and a set/clear flag in bit 0, and gives that bit of the enable register
    the value of the flag, keeping the other bits; a write to port 0x16
    replaces the same register, which a read of port 0x16 returns.  Hence,
    for a byte [m], writing to port 0x17 the bytes that carry the bits of
    [m] for all eight pins, in any order, leaves in the enable register
    what the single write of [m] to port 0x16 leaves, namely [m], and port
    0x16 reads back as [m]. *)
Theorem C4_select_writes_agree_with_enable_write
    (inp : inputs) (s : segaai_state) (m : Z) (pins : list Z) :
  is_u8 m ->
  (forall p, In p pins -> 0 <= p < 8) ->
  (forall p, 0 <= p < 8 -> In p pins) ->
  let selected :=
    fold_left (fun st p => io_write 0x17 (select_byte m p) st) pins s in
  (forall st data, io_write 0x17 data st = irq_select_w st data)
  /\ (forall st data, io_write 0x16 data st = irq_enable_w st data)
  /\ (forall st, io_read inp 0x16 st = (m_irq_enabled st, st))
  /\ (forall st data i,
         Z.testbit (m_irq_enabled (irq_select_w st data)) i
         = (i <? 8)
           && (if i =? Z.land (Z.shiftr data 1) 0x7
               then Z.testbit data 0
               else Z.testbit (m_irq_enabled st) i))
  /\ (forall st data, m_irq_enabled (irq_enable_w st data) = data)
  /\ m_irq_enabled selected = m_irq_enabled (io_write 0x16 m s)
  /\ m_irq_enabled selected = m
  /\ fst (io_read inp 0x16 selected) = m.
Proof.
  intros Hm Hpins Hall selected.
  assert (Hsel : m_irq_enabled selected = m).
  { apply (select_writes_enabled s m pins Hm Hpins Hall). }
  split; [reflexivity | ]. split; [reflexivity | ]. split; [reflexivity | ].
  split; [intros st data i; apply irq_select_w_testbit | ].
  split; [reflexivity | ].
  split; [exact Hsel | ]. split; [exact Hsel | exact Hsel].
Qed.

(** ** Touchpad scan: which cell is sampled *)

(** The loop, one round at a time. *)
Lemma shift_out_unfold (port bit : Z) :
  0 <= port ->
  shift_out port bit
  = if truthy port then shift_out (Z.shiftr port 1) (bit + 1) else bit.
Proof.
  intros Hport. destruct port as [ | p | p]; [reflexivity | | lia].
  destruct p as [q | q | ]; reflexivity.
Qed.

Lemma shift_out_pos_bounds (p : positive) :
  forall bit : Z,
    exists k, 1 <= k /\ shift_out_pos p bit = bit + k
              /\ 2 ^ (k - 1) <= Z.pos p < 2 ^ k.
Proof.
  induction p as [q IH | q IH | ]; intros bit; cbn [shift_out_pos].
  - destruct (IH (bit + 1)) as (k & Hk & -> & Hlo & Hhi).
    exists (k + 1). replace (k + 1 - 1) with (Z.succ (k - 1)) by lia.
    replace (k + 1) with (Z.succ k) at 3 by lia.
    rewrite !Z.pow_succ_r by lia. repeat split; lia.
  - destruct (IH (bit + 1)) as (k & Hk & -> & Hlo & Hhi).
    exists (k + 1). replace (k + 1 - 1) with (Z.succ (k - 1)) by lia.
    replace (k + 1) with (Z.succ k) at 3 by lia.
    rewrite !Z.pow_succ_r by lia. repeat split; lia.
  - exists 1. cbn. repeat split; lia.
Qed.

(** Started at -1, the loop ends with the index of the highest set bit. *)
Lemma shift_out_log2 (port : Z) :
  0 < port -> shift_out port (-1) = Z.log2 port.
Proof.
  intros Hport. destruct port as [ | p | p]; try lia.
  cbn [shift_out].
  destruct (shift_out_pos_bounds p (-1)) as (k & Hk & -> & Hlo & Hhi).
  symmetry. replace (-1 + k) with (k - 1) by lia.
  apply Z.log2_unique; [lia | ].
  replace (Z.succ (k - 1)) with k by lia. split; assumption.
Qed.

Lemma highest_set_bit_log2 (port bit : Z) :
  0 <= port -> is_highest_set_bit port bit -> 0 < port /\ bit = Z.log2 port.
Proof.
  intros Hport [Hset Habove].
  assert (Hpos : 0 < port).
  { destruct (Z.eq_dec port 0) as [-> | Hne]; [ | lia].
    rewrite Z.bits_0 in Hset. discriminate. }
  split; [exact Hpos | ].
  destruct (Z.lt_trichotomy bit (Z.log2 port)) as [Hlt | [Heq | Hgt]].
  - pose proof (Z.bit_log2 port Hpos) as Htop.
    rewrite (Habove _ Hlt) in Htop. discriminate.
  - exact Heq.
  - rewrite (Z.bits_above_log2 port bit) in Hset by lia. discriminate.
Qed.

Lemma touchpad_matrix_row (inp : inputs) (row : nat) :
  touchpad_matrix inp -> 0 <= nth row (m_port_tp inp) 0 < 2 ^ 24.
Proof.
  intros [_ Hall].
  destruct (Nat.lt_ge_cases row (length (m_port_tp inp))) as [Hlt | Hge].
  - rewrite Forall_forall in Hall. apply Hall, nth_In. exact Hlt.
  - rewrite nth_overflow by exact Hge. lia.
Qed.

(** The scan stops at the first row that has a bit set, with the
    coordinates of that row's highest set bit. *)
Lemma scan_rows_first_touched (inp : inputs) (todo : nat) :
  forall (start row : nat) (s : segaai_state),
    touchpad_matrix inp ->
    (start <= row < start + todo)%nat ->
    (forall r, (start <= r < row)%nat -> nth r (m_port_tp inp) 0 = 0) ->
    nth row (m_port_tp inp) 0 <> 0 ->
    scan_rows todo start inp s
    = (true,
       set_touchpad_xy s
         (nth (Z.to_nat (Z.log2 (nth row (m_port_tp inp) 0))) tp_x 0)
         (nth row tp_y 0)).
Proof.
  induction todo as [ | todo IH]; intros start row s Hm Hrow Hzero Hport;
    [lia | ].
  cbn [scan_rows].
  destruct (Nat.eq_dec start row) as [-> | Hne].
  - pose proof (touchpad_matrix_row inp row Hm) as Hrange.
    unfold truthy. destruct (Z.eqb_spec (nth row (m_port_tp inp) 0) 0);
      [contradiction | cbn [negb]].
    rewrite shift_out_log2 by lia.
    assert (Hlog : 0 <= Z.log2 (nth row (m_port_tp inp) 0) < 24).
    { split; [apply Z.log2_nonneg | ]. apply Z.log2_lt_pow2; lia. }
    change (Z.of_nat (length tp_x)) with 24.
    destruct (Z.leb_spec 0 (Z.log2 (nth row (m_port_tp inp) 0))); [ | lia].
    destruct (Z.ltb_spec (Z.log2 (nth row (m_port_tp inp) 0)) 24); [ | lia].
    reflexivity.
  - rewrite (Hzero start) by lia. cbn [truthy Z.eqb negb].
    apply IH; try assumption; [lia | ].
    intros r Hr. apply Hzero. lia.
Qed.

Lemma scan_rows_untouched (inp : inputs) (todo : nat) :
  forall (start : nat) (s : segaai_state),
    (forall r, nth r (m_port_tp inp) 0 = 0) ->
    scan_rows todo start inp s = (false, s).
Proof.
  induction todo as [ | todo IH]; intros start s Hzero; cbn [scan_rows].
  - reflexivity.
  - rewrite Hzero. cbn [truthy Z.eqb negb]. apply IH. exact Hzero.
Qed.

(** C6, as the driver has it: the scan visits the twenty rows in ascending
    order and stops at the first row with a bit set; there it takes the
    highest set bit of the row, stores the entry of the X table for that
    bit and the entry of the Y table for that row as the sampled
    coordinates, and returns true.  With only bit 0 of row 0 set the
    coordinates are (5, 6); with no bit set in any row it returns false and
    changes nothing. *)
Theorem C6_scan_samples_highest_bit_of_first_touched_row
    (inp : inputs) (s : segaai_state) :
  touchpad_matrix inp ->
  (forall row bit,
      (row < TOUCHPAD_ROWS)%nat ->
      (forall r, (r < row)%nat -> nth r (m_port_tp inp) 0 = 0) ->
      is_highest_set_bit (nth row (m_port_tp inp) 0) bit ->
      0 <= bit < 24
      /\ get_touchpad_pressed inp s
         = (true,
            set_touchpad_xy s (nth (Z.to_nat bit) tp_x 0) (nth row tp_y 0)))
  /\ (m_port_tp inp = 1 :: repeat 0 19 ->
      get_touchpad_pressed inp s = (true, set_touchpad_xy s 5 6))
  /\ ((forall r, nth r (m_port_tp inp) 0 = 0) ->
      get_touchpad_pressed inp s = (false, s))
  /\ length tp_x = 24%nat /\ length tp_y = 20%nat.
Proof.
  intros Hm. split; [ | split; [ | split; [ | split; reflexivity]]].
  - intros row bit Hrow Hzero Hbit.
    pose proof (touchpad_matrix_row inp row Hm) as Hrange.
    destruct (highest_set_bit_log2 _ bit (proj1 Hrange) Hbit) as [Hpos ->].
    split.
    + split; [apply Z.log2_nonneg | apply Z.log2_lt_pow2; lia].
    + unfold get_touchpad_pressed.
      apply scan_rows_first_touched; try assumption; [lia | | lia].
      intros r Hr. apply Hzero. lia.
  - intros Hrows. unfold get_touchpad_pressed.
    rewrite (scan_rows_first_touched inp TOUCHPAD_ROWS 0 0 s Hm).
    + rewrite Hrows. reflexivity.
    + unfold TOUCHPAD_ROWS. lia.
    + intros r Hr. lia.
    + rewrite Hrows. discriminate.
  - intros Hzero. apply scan_rows_untouched. exact Hzero.
Qed.

(** ** Sampled coordinates *)

Lemma irq_callback_touchpad (s : segaai_state) (vector : Z)
    (s' : segaai_state) :
  irq_callback s = Ok (vector, s') -> touchpad_view s' = touchpad_view s.
Proof.
  intros E.
  destruct (requesting s IRQ_V9938) eqn:Hv.
  - rewrite (irq_callback_v9938 s Hv) in E. injection E as _ <-. reflexivity.
  - destruct (requesting s IRQ_UPD7759) eqn:Hu.
    + rewrite (irq_callback_upd7759 s Hv Hu) in E. injection E as _ <-.
      reflexivity.
    + rewrite (irq_callback_fatal s Hv Hu) in E. discriminate.
Qed.

Lemma edge_callbacks_touchpad (s : segaai_state) (state : Z) :
  touchpad_view (vdp_interrupt s state) = touchpad_view s
  /\ touchpad_view (upd7759_drq_w s state) = touchpad_view s.
Proof.
  unfold vdp_interrupt, upd7759_drq_w. split.
  - destruct (state =? CLEAR_LINE), (m_prev_v9938_irq s =? CLEAR_LINE);
      reflexivity.
  - destruct (upd7759_irq_level state =? CLEAR_LINE),
             (m_prev_upd7759_irq s =? CLEAR_LINE); reflexivity.
Qed.

(** The port B read changes the sampled coordinates only when scanning is
    enabled and the scan finds a touched cell. *)
Lemma i8255_portb_r_touchpad (inp : inputs) (s : segaai_state) :
  touchpad_view (snd (i8255_portb_r inp s)) <> touchpad_view s ->
  Z.testbit (m_port_1d s) 0 = true
  /\ fst (get_touchpad_pressed inp s) = true.
Proof.
  unfold i8255_portb_r. cbn [m_port_1d set_i8255_portb].
  change (Z.land (m_port_1d s) 1) with (Z.land (m_port_1d s) (2 ^ 0)).
  rewrite truthy_land_pow2 by lia.
  destruct (Z.testbit (m_port_1d s) 0); [ | intros H; elim H; reflexivity].
  unfold get_touchpad_pressed.
  set (s1 := set_i8255_portb s _).
  destruct (scan_rows_frame TOUCHPAD_ROWS 0 inp s1) as (_ & _ & _ & Hsame & Hfst).
  rewrite (Hfst s).
  destruct (scan_rows TOUCHPAD_ROWS 0 inp s1) as [pressed s1'].
  cbn [fst snd] in *. destruct pressed; cbn [negb]; intros H.
  - split; reflexivity.
  - elim H. rewrite (Hsame eq_refl). reflexivity.
Qed.

Lemma step_touchpad (inp : inputs) (s : segaai_state) (e : event)
    (out : option Z) (s' : segaai_state) :
  step inp s e = Ok (out, s') ->
  touchpad_view s' <> touchpad_view s ->
  e = Ev_i8255_portb_r
  /\ Z.testbit (m_port_1d s) 0 = true
  /\ fst (get_touchpad_pressed inp s) = true.
Proof.
  intros E Hchg. destruct e as [st | st | st | | | | | d | a | a d];
    cbn [step] in E.
  - injection E as _ <-. elim Hchg. apply edge_callbacks_touchpad.
  - injection E as _ <-. elim Hchg. apply edge_callbacks_touchpad.
  - injection E as _ <-. elim Hchg. rewrite upd7759_busy_w_id. reflexivity.
  - destruct (irq_callback s) as [[vector s1] | ] eqn:Ecb; [ | discriminate].
    injection E as _ <-. elim Hchg. apply (irq_callback_touchpad s vector s1 Ecb).
  - injection E as _ <-. elim Hchg. reflexivity.
  - split; [reflexivity | ]. apply i8255_portb_r_touchpad.
    destruct (i8255_portb_r inp s) as [data s1]. injection E as _ <-.
    exact Hchg.
  - injection E as _ <-. elim Hchg. reflexivity.
  - injection E as _ <-. elim Hchg. reflexivity.
  - destruct (io_read_views inp a s) as (_ & Ht & _).
    destruct (io_read inp a s) as [data s1]. injection E as _ <-.
    elim Hchg. exact Ht.
  - injection E as _ <-. elim Hchg. apply io_write_views.
Qed.

(** C7: a read of port 0x1E returns the sampled Y coordinate when bit 0 of
    the byte last written to port 0x1C is set and the sampled X coordinate
    otherwise, and changes nothing; of all the calls into the driver only a
    port B read that scans, with scanning enabled, and finds a touched cell
    changes the sampled coordinates; a scan over rows that are all zero
    returns false and leaves the state, the coordinates included, as it
    was. *)
Theorem C7_coordinate_read_and_stale_sample :
  (forall s,
      port1e_r s
      = if Z.testbit (m_port_1c s) 0 then m_touchpad_y s else m_touchpad_x s)
  /\ (forall inp s, io_read inp 0x1E s = (port1e_r s, s))
  /\ (forall s data, m_port_1c (io_write 0x1C data s) = data)
  /\ (forall inp s e out s',
         step inp s e = Ok (out, s') ->
         touchpad_view s' <> touchpad_view s ->
         e = Ev_i8255_portb_r
         /\ Z.testbit (m_port_1d s) 0 = true
         /\ fst (get_touchpad_pressed inp s) = true)
  /\ (forall inp s,
         fst (get_touchpad_pressed inp s) = false ->
         snd (get_touchpad_pressed inp s) = s)
  /\ (forall inp s,
         (forall r, nth r (m_port_tp inp) 0 = 0) ->
         get_touchpad_pressed inp s = (false, s)).
Proof.
  split; [ | split; [ | split; [ | split; [ | split]]]].
  - intros s. unfold port1e_r.
    change (Z.land (m_port_1c s) 1) with (Z.land (m_port_1c s) (2 ^ 0)).
    rewrite truthy_land_pow2 by lia. reflexivity.
  - reflexivity.
  - reflexivity.
  - intros inp s e out s'. apply step_touchpad.
  - intros inp s. apply scan_rows_frame.
  - intros inp s. apply scan_rows_untouched.
Qed.

(** ** Port B of the 8255 *)

(** The scan does not look at the port B latch. *)
Lemma scan_rows_set_i8255_portb (inp : inputs) (v : Z) (todo : nat) :
  forall (row : nat) (s : segaai_state),
    scan_rows todo row inp (set_i8255_portb s v)
    = (fst (scan_rows todo row inp s),
       set_i8255_portb (snd (scan_rows todo row inp s)) v).
Proof.
  induction todo as [ | todo IH]; intros row s; cbn [scan_rows].
  - reflexivity.
  - destruct (truthy (nth row (m_port_tp inp) 0)); [ | apply IH].
    destruct ((0 <=? shift_out (nth row (m_port_tp inp) 0) (-1))
              && (shift_out (nth row (m_port_tp inp) 0) (-1)
                  <? Z.of_nat (length tp_x))); [reflexivity | apply IH].
Qed.

(** Bit [i] of a byte put together from a byte [old], of which the bits of
    [keep] are kept, the bits [low] of an input port, and the bits [a] and
    [b] set on top, returned through [mask]. *)
Lemma portb_testbit (old keep port low a b mask i : Z) :
  Z.testbit
    (u8 (Z.land
           (u8 (Z.lor (u8 (Z.lor (u8 (Z.lor (Z.land old keep)
                                            (Z.land port low))) a)) b))
           mask)) i
  = (i <? 8)
    && ((Z.testbit old i && Z.testbit keep i
         || Z.testbit port i && Z.testbit low i
         || Z.testbit a i || Z.testbit b i)
        && Z.testbit mask i).
Proof.
  repeat (rewrite ?u8_testbit, ?Z.land_spec, ?Z.lor_spec).
  destruct (i <? 8); cbn [andb]; reflexivity.
Qed.

(** C8: with bit 0 of the byte last written to port 0x1D set (scanning
    enabled), the port B read scans the touchpad and returns bit 2 (data
    available, 0 meaning available) set and bit 1 (pressed, 0 meaning
    pressed) equal to the negation of the scan's result; with that bit
    clear it does not scan and returns bit 2 clear and bit 1 set.  Bit 0
    follows the trigger button and bit 5 is returned clear. *)
Theorem C8_portb_touchpad_status (inp : inputs) (s : segaai_state) :
  (forall st data, m_port_1d (io_write 0x1D data st) = data)
  /\ (Z.testbit (m_port_1d s) 0 = true ->
      Z.testbit (fst (i8255_portb_r inp s)) 2 = true
      /\ Z.testbit (fst (i8255_portb_r inp s)) 1
         = negb (fst (get_touchpad_pressed inp s))
      /\ touchpad_view (snd (i8255_portb_r inp s))
         = touchpad_view (snd (get_touchpad_pressed inp s)))
  /\ (Z.testbit (m_port_1d s) 0 = false ->
      Z.testbit (fst (i8255_portb_r inp s)) 2 = false
      /\ Z.testbit (fst (i8255_portb_r inp s)) 1 = true
      /\ touchpad_view (snd (i8255_portb_r inp s)) = touchpad_view s)
  /\ Z.testbit (fst (i8255_portb_r inp s)) 0 = Z.testbit (m_port5 inp) 0
  /\ Z.testbit (fst (i8255_portb_r inp s)) 5 = false.
Proof.
  split; [reflexivity | ].
  unfold i8255_portb_r, get_touchpad_pressed.
  cbn [m_port_1d m_i8255_portb set_i8255_portb].
  rewrite scan_rows_set_i8255_portb.
  change (Z.land (m_port_1d s) 1) with (Z.land (m_port_1d s) (2 ^ 0)).
  rewrite truthy_land_pow2 by lia.
  set (old := m_i8255_portb s). set (port5 := m_port5 inp).
  destruct (Z.testbit (m_port_1d s) 0).
  - destruct (scan_rows TOUCHPAD_ROWS 0 inp s) as [pressed s'].
    cbn [fst snd].
    destruct pressed; cbn [negb fst snd m_i8255_portb set_i8255_portb].
    + rewrite <- (Z.lor_0_r (u8 (Z.lor (Z.land old 248) (Z.land port5 1)))).
      rewrite <- (u8_small
                    (Z.lor (u8 (Z.lor (Z.land old 248) (Z.land port5 1))) 0))
        by (rewrite Z.lor_0_r; apply u8_range).
      rewrite !portb_testbit.
      generalize (Z.testbit old 0), (Z.testbit old 1), (Z.testbit old 2),
        (Z.testbit old 5), (Z.testbit port5 0), (Z.testbit port5 1),
        (Z.testbit port5 2), (Z.testbit port5 5).
      intros o0 o1 o2 o5 p0 p1 p2 p5.
      repeat split; try discriminate; try reflexivity;
        destruct o0, o1, o2, o5, p0, p1, p2, p5; reflexivity.
    + rewrite !portb_testbit.
      generalize (Z.testbit old 0), (Z.testbit old 1), (Z.testbit old 2),
        (Z.testbit old 5), (Z.testbit port5 0), (Z.testbit port5 1),
        (Z.testbit port5 2), (Z.testbit port5 5).
      intros o0 o1 o2 o5 p0 p1 p2 p5.
      repeat split; try discriminate; try reflexivity;
        destruct o0, o1, o2, o5, p0, p1, p2, p5; reflexivity.
  - cbn [fst snd m_i8255_portb set_i8255_portb].
    rewrite <- (Z.lor_0_r (u8 (Z.lor (u8 (Z.lor (Z.land old 248)
                                                (Z.land port5 1))) 2))).
    rewrite <- (u8_small
                  (Z.lor (u8 (Z.lor (u8 (Z.lor (Z.land old 248)
                                               (Z.land port5 1))) 2)) 0))
      by (rewrite Z.lor_0_r; apply u8_range).
    rewrite !portb_testbit.
    generalize (Z.testbit old 0), (Z.testbit old 1), (Z.testbit old 2),
      (Z.testbit old 5), (Z.testbit port5 0), (Z.testbit port5 1),
      (Z.testbit port5 2), (Z.testbit port5 5).
    intros o0 o1 o2 o5 p0 p1 p2 p5.
    repeat split; try discriminate; try reflexivity;
      destruct o0, o1, o2, o5, p0, p1, p2, p5; reflexivity.
Qed.

(** ** Port map *)

(** C9: a write to port 0x0C hands its byte, as it is, to the sound chip's
    write handler and does nothing else; a read of port 0x1F, which no
    window of the map claims, returns 0xFF and leaves the whole state,
    including the record of what was forwarded to the devices, as it was;
    a write to that port is dropped. *)
Theorem C9_sound_write_forwarded_and_unmapped_read_idle
    (inp : inputs) (s : segaai_state) (data : Z) :
  write_window 0x0C = Some (mkEntry 0x0c 0x0c 0 None (Some Wr_sn76489a))
  /\ io_write 0x0C data s = forward s (Sn76489a_write data)
  /\ forwarded (io_write 0x0C data s) = Sn76489a_write data :: forwarded s
  /\ read_window 0x1F = None
  /\ io_read inp 0x1F s = (0xFF, s)
  /\ io_write 0x1F data s = s.
Proof. repeat split; reflexivity. Qed.

(** ** Reachable states *)

(** The pending mask stays a byte along every run from [machine_start]. *)
Lemma step_active_u8 (inp : inputs) (s : segaai_state) (e : event)
    (out : option Z) (s' : segaai_state) :
  step inp s e = Ok (out, s') ->
  is_u8 (m_irq_active s) -> is_u8 (m_irq_active s').
Proof.
  intros E Hu8.
  destruct e as [st | st | st | | | | | d | a | a d];
    try (rewrite (step_active_unchanged inp s _ out s' E)
           by (intros; discriminate);
         exact Hu8);
    cbn [step] in E.
  - injection E as _ <-. rewrite vdp_interrupt_active.
    destruct (negb (st =? CLEAR_LINE) && (m_prev_v9938_irq s =? CLEAR_LINE));
      [apply u8_range | exact Hu8].
  - injection E as _ <-. rewrite upd7759_drq_w_active.
    destruct (negb (upd7759_irq_level st =? CLEAR_LINE)
              && (m_prev_upd7759_irq s =? CLEAR_LINE));
      [apply u8_range | exact Hu8].
  - destruct (irq_callback s) as [[vector s1] | ] eqn:Ecb; [ | discriminate].
    injection E as _ <-.
    destruct (irq_callback_inv s vector s1 Ecb) as (src & _ & _ & -> & _).
    apply u8_range.
Qed.

Lemma run_active_u8 (calls : list (inputs * event)) :
  forall (s0 : segaai_state) (outs : list (event * option Z))
         (s' : segaai_state),
    run (machine_start s0) calls = Ok (outs, s') -> is_u8 (m_irq_active s').
Proof.
  assert (H : forall s outs s',
             run s calls = Ok (outs, s') ->
             is_u8 (m_irq_active s) -> is_u8 (m_irq_active s')).
  { induction calls as [ | [inp e] rest IH]; intros s outs s' E Hu8;
      cbn [run] in E.
    - injection E as _ <-. exact Hu8.
    - destruct (step inp s e) as [[out s1] | ] eqn:Estep; [ | discriminate].
      destruct (run s1 rest) as [[outs1 s2] | ] eqn:Erun; [ | discriminate].
      injection E as _ <-.
      apply (IH s1 outs1 s2 Erun).
      apply (step_active_u8 inp s e out s1 Estep Hu8). }
  intros s0 outs s' E. apply (H _ outs s' E).
  unfold is_u8. cbn [machine_start m_irq_active]. lia.
Qed.

(** ** More on the interrupt latch and arbiter *)

Lemma step_only_source_bits (inp : inputs) (s : segaai_state) (e : event)
    (out : option Z) (s' : segaai_state) :
  step inp s e = Ok (out, s') ->
  only_source_bits (m_irq_active s) -> only_source_bits (m_irq_active s').
Proof.
  intros E Hs.
  destruct e as [st | st | st | | | | | d | a | a d];
    try (rewrite (step_active_unchanged inp s _ out s' E)
           by (intros; discriminate);
         exact Hs);
    cbn [step] in E.
  - injection E as _ <-. rewrite vdp_interrupt_active.
    destruct (negb (st =? CLEAR_LINE) && (m_prev_v9938_irq s =? CLEAR_LINE));
      [ | exact Hs].
    intros i Hi. change IRQ_V9938 with (2 ^ 0) in Hi.
    rewrite set_bit_testbit in Hi by lia.
    apply andb_prop in Hi. destruct Hi as [_ Hi].
    apply orb_prop in Hi. destruct Hi as [Hi | Hi]; [apply Hs, Hi | ].
    left. apply Z.eqb_eq, Hi.
  - injection E as _ <-. rewrite upd7759_drq_w_active.
    destruct (negb (upd7759_irq_level st =? CLEAR_LINE)
              && (m_prev_upd7759_irq s =? CLEAR_LINE)); [ | exact Hs].
    intros i Hi. change IRQ_UPD7759 with (2 ^ 3) in Hi.
    rewrite set_bit_testbit in Hi by lia.
    apply andb_prop in Hi. destruct Hi as [_ Hi].
    apply orb_prop in Hi. destruct Hi as [Hi | Hi]; [apply Hs, Hi | ].
    right. apply Z.eqb_eq, Hi.
  - destruct (irq_callback s) as [[vector s1] | ] eqn:Ecb; [ | discriminate].
    injection E as _ <-.
    destruct (irq_callback_inv s vector s1 Ecb) as (src & _ & _ & -> & _).
    intros i Hi. apply Hs.
    rewrite u8_testbit, Z.land_spec in Hi.
    apply andb_prop in Hi. destruct Hi as [_ Hi].
    apply andb_prop in Hi. apply Hi.
Qed.

(** A run that ends in a fatal error ends it in an acknowledge, in a state
    that a run without error leads to. *)
Lemma run_fatal_inv (calls : list (inputs * event)) :
  forall (s : segaai_state) (format : string) (args : list Z),
    run s calls = Fatalerror format args ->
    exists before outs s1,
      run s before = Ok (outs, s1)
      /\ irq_callback s1 = Fatalerror format args.
Proof.
  induction calls as [ | [inp e] rest IH]; intros s format args E;
    cbn [run] in E; [discriminate | ].
  destruct (step inp s e) as [[out s1] | f a] eqn:Estep.
  - destruct (run s1 rest) as [[outs1 s2] | f a] eqn:Erun; [discriminate | ].
    injection E as <- <-.
    destruct (IH s1 f a Erun) as (before & outs & s2 & Hrun & Hcb).
    exists ((inp, e) :: before), ((e, out) :: outs), s2.
    split; [ | exact Hcb]. cbn [run]. rewrite Estep, Hrun. reflexivity.
  - injection E as <- <-. exists [], [], s. split; [reflexivity | ].
    destruct e as [st | st | st | | | | | d | a0 | a0 d]; cbn [step] in Estep;
      try discriminate Estep.
    + destruct (irq_callback s) as [[vector s1] | f' a'];
        [discriminate Estep | ].
      injection Estep as <- <-. reflexivity.
    + destruct (io_read inp a0 s). cbv beta iota in Estep.
      discriminate Estep.
Qed.

Lemma run_only_source_bits (calls : list (inputs * event)) :
  forall (s : segaai_state) (outs : list (event * option Z))
         (s' : segaai_state),
    run s calls = Ok (outs, s') ->
    only_source_bits (m_irq_active s) -> only_source_bits (m_irq_active s').
Proof.
  induction calls as [ | [inp e] rest IH]; intros s outs s' E Hs;
    cbn [run] in E.
  - injection E as _ <-. exact Hs.
  - destruct (step inp s e) as [[out s1] | ] eqn:Estep; [ | discriminate].
    destruct (run s1 rest) as [[outs1 s2] | ] eqn:Erun; [ | discriminate].
    injection E as _ <-.
    apply (IH s1 outs1 s2 Erun).
    apply (step_only_source_bits inp s e out s1 Estep Hs).
Qed.

Lemma machine_start_only_source_bits (s0 : segaai_state) :
  only_source_bits (m_irq_active (machine_start s0)).
Proof.
  intros i Hi. cbn [machine_start m_irq_active] in Hi.
  rewrite Z.bits_0 in Hi. discriminate.
Qed.

(** A byte with no bit besides bits 0 and 3 is 0, 1, 8 or 9. *)
Lemma only_source_bits_values (a : Z) :
  0 <= a -> only_source_bits a -> a = 0 \/ a = 1 \/ a = 8 \/ a = 9.
Proof.
  intros Ha Hs.
  assert (E : a = Z.lor (if Z.testbit a 0 then 2 ^ 0 else 0)
                        (if Z.testbit a 3 then 2 ^ 3 else 0)).
  { apply Z.bits_inj'. intros i Hi. rewrite Z.lor_spec.
    destruct (Z.testbit a i) eqn:Hbit.
    - destruct (Hs i Hbit) as [-> | ->]; rewrite Hbit.
      + rewrite Z.pow2_bits_eqb by lia. reflexivity.
      + rewrite (Z.pow2_bits_eqb 3) by lia. apply eq_sym, orb_true_r.
    - symmetry. apply orb_false_iff. split.
      + destruct (Z.testbit a 0) eqn:H0; [ | apply Z.bits_0].
        rewrite Z.pow2_bits_eqb by lia. apply Z.eqb_neq. intros <-.
        congruence.
      + destruct (Z.testbit a 3) eqn:H3; [ | apply Z.bits_0].
        rewrite Z.pow2_bits_eqb by lia. apply Z.eqb_neq. intros <-.
        congruence. }
  destruct (Z.testbit a 0), (Z.testbit a 3); cbn in E; auto.
Qed.

(** X1: after [machine_start] and any calls, the pending mask is 0x00,
    0x01, 0x08 or 0x09: no call sets a pending bit other than the video
    chip's and the speech chip's. *)
Theorem X1_pending_mask_has_only_source_bits
    (s0 : segaai_state) (calls : list (inputs * event))
    (outs : list (event * option Z)) (s' : segaai_state) :
  run (machine_start s0) calls = Ok (outs, s') ->
  m_irq_active s' = 0x00 \/ m_irq_active s' = 0x01
  \/ m_irq_active s' = 0x08 \/ m_irq_active s' = 0x09.
Proof.
  intros E. apply only_source_bits_values.
  - apply (run_active_u8 calls s0 outs s' E).
  - apply (run_only_source_bits calls _ outs s' E).
    apply machine_start_only_source_bits.
Qed.

(** With no bit besides the two sources' in the pending mask, an
    acknowledge that finds neither source requesting finds nothing pending
    and enabled at all. *)
Lemma no_unknown_request (s : segaai_state) :
  only_source_bits (m_irq_active s) ->
  requesting s IRQ_V9938 = false ->
  requesting s IRQ_UPD7759 = false ->
  Z.land (m_irq_active s) (m_irq_enabled s) = 0.
Proof.
  intros Hs Hv Hu. rewrite requesting_v9938 in Hv.
  rewrite requesting_upd7759 in Hu.
  apply Z.bits_inj'. intros i Hi. rewrite Z.land_spec, Z.bits_0.
  destruct (Z.testbit (m_irq_active s) i) eqn:Hbit; [ | reflexivity].
  destruct (Hs i Hbit) as [-> | ->]; congruence.
Qed.

(** X2: a run from [machine_start] that ends in a fatal error ends with
    the diagnostic of an acknowledge with nothing pending and enabled; the
    diagnostic for an unknown source is never produced. *)
Theorem X2_unknown_irq_diagnostic_unreachable
    (s0 : segaai_state) (calls : list (inputs * event))
    (format : string) (args : list Z) :
  run (machine_start s0) calls = Fatalerror format args ->
  format = msg_no_irq
  /\ format <> msg_unknown_irq
  /\ exists active enabled,
       args = [active; enabled] /\ Z.land active enabled = 0.
Proof.
  intros E.
  destruct (run_fatal_inv calls _ format args E)
    as (before & outs & s1 & Hrun & Hcb).
  assert (Hs : only_source_bits (m_irq_active s1)).
  { apply (run_only_source_bits before _ outs s1 Hrun).
    apply machine_start_only_source_bits. }
  destruct (requesting s1 IRQ_V9938) eqn:Hv.
  { rewrite (irq_callback_v9938 s1 Hv) in Hcb. discriminate. }
  destruct (requesting s1 IRQ_UPD7759) eqn:Hu.
  { rewrite (irq_callback_upd7759 s1 Hv Hu) in Hcb. discriminate. }
  rewrite (irq_callback_fatal s1 Hv Hu) in Hcb.
  pose proof (no_unknown_request s1 Hs Hv Hu) as Hzero.
  rewrite Hzero in Hcb. cbn [truthy Z.eqb negb] in Hcb.
  injection Hcb as <- <-.
  split; [reflexivity | split; [discriminate | ]].
  exists (m_irq_active s1), (m_irq_enabled s1). split; [reflexivity | exact Hzero].
Qed.

Lemma requesting_after_clear (s : segaai_state) (cleared other : source)
    (s' : segaai_state) :
  m_irq_active s'
  = u8 (Z.land (m_irq_active s) (Z.lnot (irq_bit cleared))) ->
  m_irq_enabled s' = m_irq_enabled s ->
  requesting s' (irq_bit other)
  = if match cleared, other with
       | Src_v9938, Src_v9938 | Src_upd7759, Src_upd7759 => true
       | _, _ => false
       end
    then false else requesting s (irq_bit other).
Proof.
  intros Hact Hen.
  destruct cleared, other; cbn [irq_bit] in *;
    rewrite ?requesting_v9938, ?requesting_upd7759, Hact, Hen.
  - change IRQ_V9938 with (2 ^ 0). rewrite clear_bit_testbit_any by lia.
    reflexivity.
  - change IRQ_V9938 with (2 ^ 0). rewrite clear_bit_testbit_any by lia.
    reflexivity.
  - change IRQ_UPD7759 with (2 ^ 3). rewrite clear_bit_testbit_any by lia.
    reflexivity.
  - change IRQ_UPD7759 with (2 ^ 3). rewrite clear_bit_testbit_any by lia.
    reflexivity.
Qed.

(** X3: when two acknowledges in a row both return a vector, the first is
    the video chip's 0xF8 and the second the speech chip's 0xFB, and a third
    acknowledge directly after them is fatal: without a new edge no source
    is served twice and the speech chip is never served before a requesting
    video chip. *)
Theorem X3_two_acknowledges_in_a_row
    (s s1 s2 : segaai_state) (vector1 vector2 : Z) :
  irq_callback s = Ok (vector1, s1) ->
  irq_callback s1 = Ok (vector2, s2) ->
  vector1 = 0xF8 /\ vector2 = 0xFB
  /\ requesting s IRQ_V9938 = true /\ requesting s IRQ_UPD7759 = true
  /\ exists format,
       irq_callback s2
       = Fatalerror format [m_irq_active s2; m_irq_enabled s].
Proof.
  intros E1 E2.
  destruct (irq_callback_inv s vector1 s1 E1)
    as (src1 & Hreq1 & -> & Hact1 & Hen1 & Hfirst1).
  destruct (irq_callback_inv s1 vector2 s2 E2)
    as (src2 & Hreq2 & -> & Hact2 & Hen2 & Hfirst2).
  pose proof (requesting_after_clear s src1 src2 s1 Hact1 Hen1) as R1.
  rewrite Hreq2 in R1.
  destruct src1, src2; try discriminate R1; cbn [irq_bit] in R1.
  - assert (Rv : requesting s2 IRQ_V9938 = false).
    { pose proof (requesting_after_clear s1 Src_upd7759 Src_v9938 s2
                    Hact2 Hen2) as A.
      pose proof (requesting_after_clear s Src_v9938 Src_v9938 s1
                    Hact1 Hen1) as B.
      cbn [irq_bit] in A, B. rewrite A, B. reflexivity. }
    assert (Ru : requesting s2 IRQ_UPD7759 = false).
    { apply (requesting_after_clear s1 Src_upd7759 Src_upd7759 s2
               Hact2 Hen2). }
    repeat split; try reflexivity; try assumption; [symmetry; exact R1 | ].
    rewrite (irq_callback_fatal s2 Rv Ru), Hen2, Hen1.
    eexists. reflexivity.
  - exfalso. rewrite (Hfirst1 eq_refl) in R1. discriminate R1.
Qed.

(** X4: an acknowledge returns a vector exactly when the video chip or the
    speech chip is pending and enabled; the vector is then 0xF8 or 0xFB
    (never the initial 0 nor a serial chip vector), it is what [m_vector]
    holds afterwards, the enable mask is as before, and the line is left
    asserted exactly when a source is still pending and enabled. *)
Theorem X4_acknowledge_outcome (s : segaai_state) :
  ((exists vector s', irq_callback s = Ok (vector, s'))
   <-> requesting s IRQ_V9938 = true \/ requesting s IRQ_UPD7759 = true)
  /\ (forall vector s',
         irq_callback s = Ok (vector, s') ->
         (vector = 0xF8 \/ vector = 0xFB)
         /\ vector <> 0
         /\ vector <> VECTOR_I8251_SEND /\ vector <> VECTOR_I8251_RECEIVE
         /\ m_vector s' = vector
         /\ m_irq_enabled s' = m_irq_enabled s
         /\ line_follows ASSERT_LINE s').
Proof.
  split.
  - split.
    + intros (vector & s' & E).
      destruct (irq_callback_inv s vector s' E) as (src & Hreq & _).
      destruct src; [left | right]; exact Hreq.
    + intros H. destruct (requesting s IRQ_V9938) eqn:Hv.
      * eexists. eexists. apply (irq_callback_v9938 s Hv).
      * destruct H as [H | H]; [discriminate H | ].
        eexists. eexists. apply (irq_callback_upd7759 s Hv H).
  - intros vector s' E.
    pose proof (proj2 (proj2 (line_follows_after_edge_and_acknowledge s))
                  vector s' E) as Hline.
    destruct (irq_callback_inv s vector s' E) as (src & _ & -> & _ & Hen & _).
    assert (Hvec : m_vector s' = irq_vector src).
    { destruct (requesting s IRQ_V9938) eqn:Hv.
      - rewrite (irq_callback_v9938 s Hv) in E. injection E as Hvec <-.
        exact Hvec.
      - destruct (requesting s IRQ_UPD7759) eqn:Hu.
        + rewrite (irq_callback_upd7759 s Hv Hu) in E. injection E as Hvec <-.
          exact Hvec.
        + rewrite (irq_callback_fatal s Hv Hu) in E. discriminate E. }
    split; [destruct src; [left | right]; reflexivity | ].
    split; [destruct src; discriminate | ].
    split; [destruct src; discriminate | ].
    split; [destruct src; discriminate | ].
    split; [exact Hvec | split; [exact Hen | exact Hline]].
Qed.

(** X5: the two edge callbacks and the acknowledge leave the CPU interrupt
    line asserted exactly when a source is pending and enabled; every other
    call keeps that agreement when it holds before, as long as the call
    leaves the enable mask as it was.  So only a change of the enable mask
    can put the line out of step with the masks. *)
Theorem X5_line_out_of_step_only_by_enable_change
    (inp : inputs) (s : segaai_state) (e : event) (out : option Z)
    (s' : segaai_state) :
  step inp s e = Ok (out, s') ->
  ((exists state, e = Ev_vdp_interrupt state)
   \/ (exists state, e = Ev_upd7759_drq_w state)
   \/ e = Ev_irq_callback ->
   line_follows ASSERT_LINE s')
  /\ (line_follows ASSERT_LINE s ->
      m_irq_enabled s' = m_irq_enabled s ->
      line_follows ASSERT_LINE s').
Proof.
  intros E.
  assert (Hedge : (exists state, e = Ev_vdp_interrupt state)
                  \/ (exists state, e = Ev_upd7759_drq_w state)
                  \/ e = Ev_irq_callback ->
                  line_follows ASSERT_LINE s').
  { intros [[st ->] | [[st ->] | ->]]; cbn [step] in E.
    - injection E as _ <-. apply line_follows_after_edge_and_acknowledge.
    - injection E as _ <-. apply line_follows_after_edge_and_acknowledge.
    - destruct (irq_callback s) as [[vector s1] | ] eqn:Ecb;
        [ | discriminate E].
      injection E as _ <-.
      apply (proj2 (proj2 (line_follows_after_edge_and_acknowledge s))
               vector s1 Ecb). }
  split; [exact Hedge | ].
  intros Hline Hen.
  destruct e as [st | st | st | | | | | d | a | a d];
    try (apply Hedge; eauto; fail).
  - cbn [step] in E. injection E as _ <-. rewrite upd7759_busy_w_id.
    exact Hline.
  - cbn [step] in E. injection E as _ <-. exact Hline.
  - assert (Hl : latch_view s' = latch_view s).
    { cbn [step] in E. destruct (i8255_portb_r_views inp s) as [Hl _].
      destruct (i8255_portb_r inp s) as [data s1]. injection E as _ <-.
      exact Hl. }
    unfold line_follows in *. injection Hl as -> _ _ _ ->. rewrite Hen.
    exact Hline.
  - cbn [step] in E. injection E as _ <-. exact Hline.
  - cbn [step] in E. injection E as _ <-. exact Hline.
  - assert (Hl : latch_view s' = latch_view s).
    { cbn [step] in E. destruct (io_read_views inp a s) as [Hl _].
      destruct (io_read inp a s) as [data s1]. injection E as _ <-.
      exact Hl. }
    unfold line_follows in *. injection Hl as -> _ _ _ ->. rewrite Hen.
    exact Hline.
  - assert (Hl : latch_view s' = latch_view s).
    { cbn [step] in E. injection E as _ <-. apply io_write_views. }
    unfold line_follows in *. injection Hl as -> _ _ _ ->. rewrite Hen.
    exact Hline.
Qed.

(** ** More on the touchpad scan *)

Lemma scan_rows_true_iff (inp : inputs) (s : segaai_state) (todo : nat) :
  forall start : nat,
    touchpad_matrix inp ->
    (fst (scan_rows todo start inp s) = true
     <-> exists row, (start <= row < start + todo)%nat
                     /\ nth row (m_port_tp inp) 0 <> 0).
Proof.
  induction todo as [ | todo IH]; intros start Hm; cbn [scan_rows].
  - split; [discriminate | ]. intros (row & Hrow & _). lia.
  - pose proof (touchpad_matrix_row inp start Hm) as Hrange.
    unfold truthy.
    destruct (Z.eqb_spec (nth start (m_port_tp inp) 0) 0) as [Hz | Hnz];
      cbn [negb].
    + rewrite (IH (S start) Hm). split.
      * intros (row & Hrow & Hport). exists row. split; [lia | exact Hport].
      * intros (row & Hrow & Hport). exists row. split; [ | exact Hport].
        destruct (Nat.eq_dec row start) as [-> | Hne]; [contradiction | lia].
    + rewrite shift_out_log2 by lia.
      assert (Hlog : 0 <= Z.log2 (nth start (m_port_tp inp) 0) < 24).
      { split; [apply Z.log2_nonneg | ]. apply Z.log2_lt_pow2; lia. }
      change (Z.of_nat (length tp_x)) with 24.
      destruct (Z.leb_spec 0 (Z.log2 (nth start (m_port_tp inp) 0))); [ | lia].
      destruct (Z.ltb_spec (Z.log2 (nth start (m_port_tp inp) 0)) 24); [ | lia].
      cbn [andb fst]. split; [ | reflexivity].
      intros _. exists start. split; [lia | exact Hnz].
Qed.

(** X6: over a well-formed touchpad matrix the scan returns true exactly
    when one of the twenty rows has a bit set. *)
Theorem X6_scan_true_iff_some_row_touched
    (inp : inputs) (s : segaai_state) :
  touchpad_matrix inp ->
  (fst (get_touchpad_pressed inp s) = true
   <-> exists row, (row < TOUCHPAD_ROWS)%nat
                   /\ nth row (m_port_tp inp) 0 <> 0).
Proof.
  intros Hm. unfold get_touchpad_pressed.
  rewrite (scan_rows_true_iff inp s TOUCHPAD_ROWS 0 Hm).
  split; intros (row & Hrow & Hport); exists row; (split; [lia | exact Hport]).
Qed.

(** A successful scan leaves entries of the two tables as coordinates,
    whatever the rows hold. *)
Lemma scan_rows_from_tables (inp : inputs) (todo : nat) :
  forall (start : nat) (s : segaai_state),
    (start + todo <= length tp_y)%nat ->
    fst (scan_rows todo start inp s) = true ->
    In (m_touchpad_x (snd (scan_rows todo start inp s))) tp_x
    /\ In (m_touchpad_y (snd (scan_rows todo start inp s))) tp_y.
Proof.
  induction todo as [ | todo IH]; intros start s Hlen; cbn [scan_rows].
  - discriminate.
  - destruct (truthy (nth start (m_port_tp inp) 0)); [ | apply IH; lia].
    destruct (Z.leb_spec 0 (shift_out (nth start (m_port_tp inp) 0) (-1)))
      as [Hlo | _]; cbn [andb]; [ | apply IH; lia].
    destruct (Z.ltb_spec (shift_out (nth start (m_port_tp inp) 0) (-1))
                         (Z.of_nat (length tp_x)))
      as [Hhi | _]; [ | apply IH; lia].
    intros _. cbn [fst snd m_touchpad_x m_touchpad_y set_touchpad_xy].
    split; apply nth_In; lia.
Qed.

Lemma get_touchpad_pressed_from_tables (inp : inputs) (s : segaai_state) :
  fst (get_touchpad_pressed inp s) = true ->
  In (m_touchpad_x (snd (get_touchpad_pressed inp s))) tp_x
  /\ In (m_touchpad_y (snd (get_touchpad_pressed inp s))) tp_y.
Proof.
  unfold get_touchpad_pressed. apply scan_rows_from_tables.
  exact (Nat.le_refl 20).
Qed.

Lemma i8255_portb_r_touchpad_view (inp : inputs) (s : segaai_state) :
  touchpad_view (snd (i8255_portb_r inp s))
  = if Z.testbit (m_port_1d s) 0
    then touchpad_view (snd (get_touchpad_pressed inp s))
    else touchpad_view s.
Proof.
  unfold i8255_portb_r, get_touchpad_pressed.
  cbn [m_port_1d m_i8255_portb set_i8255_portb].
  rewrite scan_rows_set_i8255_portb.
  change (Z.land (m_port_1d s) 1) with (Z.land (m_port_1d s) (2 ^ 0)).
  rewrite truthy_land_pow2 by lia.
  destruct (Z.testbit (m_port_1d s) 0); [ | reflexivity].
  destruct (scan_rows TOUCHPAD_ROWS 0 inp s) as [pressed s'].
  destruct pressed; reflexivity.
Qed.

Lemma step_sampled_from_tables (inp : inputs) (s : segaai_state) (e : event)
    (out : option Z) (s' : segaai_state) :
  step inp s e = Ok (out, s') ->
  sampled_from_tables s -> sampled_from_tables s'.
Proof.
  intros E Hs.
  assert (Hdec : touchpad_view s' = touchpad_view s
                 \/ touchpad_view s' <> touchpad_view s).
  { unfold touchpad_view.
    destruct (Z.eq_dec (m_touchpad_x s') (m_touchpad_x s)) as [-> | Hx];
      [ | right; congruence].
    destruct (Z.eq_dec (m_touchpad_y s') (m_touchpad_y s)) as [-> | Hy];
      [left; reflexivity | right; congruence]. }
  destruct Hdec as [Hsame | Hchg].
  - unfold sampled_from_tables, touchpad_view in *.
    injection Hsame as -> ->. exact Hs.
  - destruct (step_touchpad inp s e out s' E Hchg) as (-> & Hscan & Hpressed).
    cbn [step] in E.
    pose proof (i8255_portb_r_touchpad_view inp s) as Hview.
    destruct (i8255_portb_r inp s) as [data s1]. injection E as _ <-.
    cbn [snd] in Hview. rewrite Hscan in Hview.
    pose proof (get_touchpad_pressed_from_tables inp s Hpressed) as [Hx Hy].
    right. unfold touchpad_view in Hview. injection Hview as Ex Ey.
    rewrite Ex, Ey. split; [exact Hx | exact Hy].
Qed.

Lemma run_sampled_from_tables (calls : list (inputs * event)) :
  forall (s : segaai_state) (outs : list (event * option Z))
         (s' : segaai_state),
    run s calls = Ok (outs, s') ->
    sampled_from_tables s -> sampled_from_tables s'.
Proof.
  induction calls as [ | [inp e] rest IH]; intros s outs s' E Hs;
    cbn [run] in E.
  - injection E as _ <-. exact Hs.
  - destruct (step inp s e) as [[out s1] | ] eqn:Estep; [ | discriminate].
    destruct (run s1 rest) as [[outs1 s2] | ] eqn:Erun; [ | discriminate].
    injection E as _ <-.
    apply (IH s1 outs1 s2 Erun).
    apply (step_sampled_from_tables inp s e out s1 Estep Hs).
Qed.

(** X7: after [machine_start] and any calls, whatever the touchpad rows
    held during them, a read of port 0x1E returns 0 or an entry of the X
    table or of the Y table, hence a byte: the scan never stores a
    coordinate from outside the two tables. *)
Theorem X7_coordinate_read_returns_table_entry
    (s0 : segaai_state) (calls : list (inputs * event))
    (outs : list (event * option Z)) (s' : segaai_state) (inp : inputs) :
  run (machine_start s0) calls = Ok (outs, s') ->
  (fst (io_read inp 0x1E s') = 0
   \/ In (fst (io_read inp 0x1E s')) tp_x
   \/ In (fst (io_read inp 0x1E s')) tp_y)
  /\ is_u8 (fst (io_read inp 0x1E s'))
  /\ sampled_from_tables s'.
Proof.
  intros E.
  assert (Hs : sampled_from_tables s').
  { apply (run_sampled_from_tables calls _ outs s' E). left. reflexivity. }
  assert (Hv : fst (io_read inp 0x1E s') = 0
               \/ In (fst (io_read inp 0x1E s')) tp_x
               \/ In (fst (io_read inp 0x1E s')) tp_y).
  { change (fst (io_read inp 0x1E s')) with (port1e_r s').
    unfold port1e_r.
    destruct Hs as [Hzero | [Hx Hy]].
    - unfold touchpad_view in Hzero. injection Hzero as -> ->.
      left. destruct (truthy (Z.land (m_port_1c s') 1)); reflexivity.
    - right. destruct (truthy (Z.land (m_port_1c s') 1));
        [right; exact Hy | left; exact Hx]. }
  split; [exact Hv | split; [ | exact Hs]].
  unfold is_u8. destruct Hv as [-> | [Hx | Hy]]; [lia | | ].
  - unfold tp_x in Hx. cbn [In] in Hx. lia.
  - unfold tp_y in Hy. cbn [In] in Hy. lia.
Qed.

(** The scan passes over rows that are zero or have a bit set at or above
    bit 24. *)
Lemma scan_rows_skips (inp : inputs) (todo : nat) :
  forall (start row : nat) (s : segaai_state),
    (start <= row < start + todo)%nat ->
    (forall r, (start <= r < row)%nat ->
               nth r (m_port_tp inp) 0 = 0
               \/ 2 ^ 24 <= nth r (m_port_tp inp) 0) ->
    0 < nth row (m_port_tp inp) 0 < 2 ^ 24 ->
    scan_rows todo start inp s
    = (true,
       set_touchpad_xy s
         (nth (Z.to_nat (Z.log2 (nth row (m_port_tp inp) 0))) tp_x 0)
         (nth row tp_y 0)).
Proof.
  induction todo as [ | todo IH]; intros start row s Hrow Hskip Hport;
    [lia | ].
  cbn [scan_rows]. change (Z.of_nat (length tp_x)) with 24.
  destruct (Nat.eq_dec start row) as [-> | Hne].
  - unfold truthy. destruct (Z.eqb_spec (nth row (m_port_tp inp) 0) 0);
      [lia | cbn [negb]].
    rewrite shift_out_log2 by lia.
    assert (Hlog : 0 <= Z.log2 (nth row (m_port_tp inp) 0) < 24).
    { split; [apply Z.log2_nonneg | ]. apply Z.log2_lt_pow2; lia. }
    destruct (Z.leb_spec 0 (Z.log2 (nth row (m_port_tp inp) 0))); [ | lia].
    destruct (Z.ltb_spec (Z.log2 (nth row (m_port_tp inp) 0)) 24); [ | lia].
    reflexivity.
  - assert (Hnext : scan_rows todo (S start) inp s
                    = (true,
                       set_touchpad_xy s
                         (nth (Z.to_nat (Z.log2 (nth row (m_port_tp inp) 0)))
                              tp_x 0)
                         (nth row tp_y 0))).
    { apply IH; [lia | | exact Hport]. intros r Hr. apply Hskip. lia. }
    destruct (Hskip start) as [Hz | Hbig]; [lia | | ].
    + rewrite Hz. cbn [truthy Z.eqb negb]. exact Hnext.
    + unfold truthy. destruct (Z.eqb_spec (nth start (m_port_tp inp) 0) 0);
        [lia | cbn [negb]].
      rewrite shift_out_log2 by lia.
      assert (Hlog : 24 <= Z.log2 (nth start (m_port_tp inp) 0)).
      { change 24 with (Z.log2 (2 ^ 24)). apply Z.log2_le_mono. exact Hbig. }
      destruct (Z.ltb_spec (Z.log2 (nth start (m_port_tp inp) 0)) 24);
        [lia | ].
      rewrite andb_false_r. exact Hnext.
Qed.

(** X8: a row whose value has a bit set at or above bit 24, for which the
    X table has no entry, is passed over like an empty row: the scan goes
    on to the first row with a value below 2^24 that is not zero, and
    samples that row's highest set bit. *)
Theorem X8_rows_beyond_x_table_are_skipped
    (inp : inputs) (s : segaai_state) (row : nat) :
  (row < TOUCHPAD_ROWS)%nat ->
  (forall r, (r < row)%nat ->
             nth r (m_port_tp inp) 0 = 0
             \/ 2 ^ 24 <= nth r (m_port_tp inp) 0) ->
  0 < nth row (m_port_tp inp) 0 < 2 ^ 24 ->
  get_touchpad_pressed inp s
  = (true,
     set_touchpad_xy s
       (nth (Z.to_nat (Z.log2 (nth row (m_port_tp inp) 0))) tp_x 0)
       (nth row tp_y 0)).
Proof.
  intros Hrow Hskip Hport. unfold get_touchpad_pressed.
  apply scan_rows_skips; [lia | | exact Hport].
  intros r Hr. apply Hskip. lia.
Qed.

(** ** More on the 8255 callbacks and the speech chip control *)

Lemma do_write_i8255_portb (h : write_handler) (offset data : Z)
    (s : segaai_state) :
  m_i8255_portb (do_write h offset data s) = m_i8255_portb s.
Proof.
  destruct h; cbn [do_write]; try reflexivity.
  unfold irq_select_w. destruct (truthy (Z.land data 1)); reflexivity.
Qed.

(** Only the port B read changes the port B latch. *)
Lemma step_i8255_portb_unchanged (inp : inputs) (s : segaai_state)
    (e : event) (out : option Z) (s' : segaai_state) :
  step inp s e = Ok (out, s') ->
  e <> Ev_i8255_portb_r ->
  m_i8255_portb s' = m_i8255_portb s.
Proof.
  intros E Hne. destruct e as [st | st | st | | | | | d | a | a d];
    cbn [step] in E.
  - injection E as _ <-. unfold vdp_interrupt.
    destruct (st =? CLEAR_LINE), (m_prev_v9938_irq s =? CLEAR_LINE);
      reflexivity.
  - injection E as _ <-. unfold upd7759_drq_w.
    destruct (upd7759_irq_level st =? CLEAR_LINE),
             (m_prev_upd7759_irq s =? CLEAR_LINE); reflexivity.
  - injection E as _ <-. rewrite upd7759_busy_w_id. reflexivity.
  - destruct (requesting s IRQ_V9938) eqn:Hv.
    + rewrite (irq_callback_v9938 s Hv) in E. injection E as _ <-.
      reflexivity.
    + destruct (requesting s IRQ_UPD7759) eqn:Hu.
      * rewrite (irq_callback_upd7759 s Hv Hu) in E. injection E as _ <-.
        reflexivity.
      * rewrite (irq_callback_fatal s Hv Hu) in E. discriminate E.
  - injection E as _ <-. reflexivity.
  - elim Hne. reflexivity.
  - injection E as _ <-. reflexivity.
  - injection E as _ <-. reflexivity.
  - unfold io_read in E. destruct (read_window a) as [w | ].
    + destruct (e_read w) as [h | ].
      * destruct h; cbn in E; injection E as _ <-; reflexivity.
      * injection E as _ <-. reflexivity.
    + injection E as _ <-. reflexivity.
  - injection E as _ <-. unfold io_write.
    destruct (write_window a) as [w | ]; [ | reflexivity].
    destruct (e_write w) as [h | ]; [apply do_write_i8255_portb | reflexivity].
Qed.

(** The port B read keeps bits 3 to 7 of the latch and returns them, with
    bit 5 masked off. *)
Lemma i8255_portb_r_upper_bits (inp : inputs) (s : segaai_state) (i : Z) :
  3 <= i < 8 ->
  Z.testbit (m_i8255_portb (snd (i8255_portb_r inp s))) i
  = Z.testbit (m_i8255_portb s) i
  /\ Z.testbit (fst (i8255_portb_r inp s)) i
     = negb (i =? 5) && Z.testbit (m_i8255_portb s) i.
Proof.
  intros Hi. unfold i8255_portb_r, get_touchpad_pressed.
  cbn [m_port_1d m_i8255_portb set_i8255_portb].
  rewrite scan_rows_set_i8255_portb.
  set (old := m_i8255_portb s). set (port5 := m_port5 inp).
  destruct (truthy (Z.land (m_port_1d s) 1)).
  - destruct (scan_rows TOUCHPAD_ROWS 0 inp s) as [pressed s'].
    destruct pressed; cbn [negb fst snd m_i8255_portb set_i8255_portb];
      repeat (rewrite ?u8_testbit, ?Z.land_spec, ?Z.lor_spec);
      generalize (Z.testbit old i), (Z.testbit port5 i); intros o p5;
      assert (Hcases : i = 3 \/ i = 4 \/ i = 5 \/ i = 6 \/ i = 7) by lia;
      destruct Hcases as [-> | [-> | [-> | [-> | ->]]]];
      destruct o, p5; split; reflexivity.
  - cbn [fst snd m_i8255_portb set_i8255_portb].
    repeat (rewrite ?u8_testbit, ?Z.land_spec, ?Z.lor_spec).
    generalize (Z.testbit old i), (Z.testbit port5 i). intros o p5.
    assert (Hcases : i = 3 \/ i = 4 \/ i = 5 \/ i = 6 \/ i = 7) by lia.
    destruct Hcases as [-> | [-> | [-> | [-> | ->]]]];
      destruct o, p5; split; reflexivity.
Qed.

Lemma step_portb_upper_bits (inp : inputs) (s : segaai_state) (e : event)
    (out : option Z) (s' : segaai_state) :
  step inp s e = Ok (out, s') ->
  portb_upper_bits (m_i8255_portb s) -> portb_upper_bits (m_i8255_portb s').
Proof.
  intros E Hs.
  assert (Hdec : e = Ev_i8255_portb_r \/ e <> Ev_i8255_portb_r)
    by (destruct e; (left; reflexivity) || (right; discriminate)).
  destruct Hdec as [-> | Hne].
  - cbn [step] in E.
    pose proof (fun i Hi => proj1 (i8255_portb_r_upper_bits inp s i Hi))
      as Hbits.
    destruct (i8255_portb_r inp s) as [data s1]. injection E as _ <-.
    cbn [snd] in Hbits. unfold portb_upper_bits in *.
    rewrite !Hbits by lia. exact Hs.
  - rewrite (step_i8255_portb_unchanged inp s e out s' E Hne). exact Hs.
Qed.

Lemma run_portb_upper_bits (calls : list (inputs * event)) :
  forall (s : segaai_state) (outs : list (event * option Z))
         (s' : segaai_state),
    run s calls = Ok (outs, s') ->
    portb_upper_bits (m_i8255_portb s) -> portb_upper_bits (m_i8255_portb s').
Proof.
  induction calls as [ | [inp e] rest IH]; intros s outs s' E Hs;
    cbn [run] in E.
  - injection E as _ <-. exact Hs.
  - destruct (step inp s e) as [[out s1] | ] eqn:Estep; [ | discriminate].
    destruct (run s1 rest) as [[outs1 s2] | ] eqn:Erun; [ | discriminate].
    injection E as _ <-.
    apply (IH s1 outs1 s2 Erun).
    apply (step_portb_upper_bits inp s e out s1 Estep Hs).
Qed.

(** X9: after [machine_start] and any calls, a port B read returns bits 3,
    4 and 6 set and bits 5 and 7 clear: nothing in the driver ever changes
    the upper five bits of the port B latch from the 0x7F that
    [machine_start] stores, and the read masks bit 5 off. *)
Theorem X9_portb_upper_bits_fixed
    (s0 : segaai_state) (calls : list (inputs * event))
    (outs : list (event * option Z)) (s' : segaai_state) (inp : inputs) :
  run (machine_start s0) calls = Ok (outs, s') ->
  Z.testbit (fst (i8255_portb_r inp s')) 3 = true
  /\ Z.testbit (fst (i8255_portb_r inp s')) 4 = true
  /\ Z.testbit (fst (i8255_portb_r inp s')) 5 = false
  /\ Z.testbit (fst (i8255_portb_r inp s')) 6 = true
  /\ Z.testbit (fst (i8255_portb_r inp s')) 7 = false.
Proof.
  intros E.
  assert (Hs : portb_upper_bits (m_i8255_portb s')).
  { apply (run_portb_upper_bits calls _ outs s' E).
    unfold portb_upper_bits. cbn [machine_start m_i8255_portb].
    repeat split; reflexivity. }
  destruct Hs as (H3 & H4 & H5 & H6 & H7).
  rewrite (proj2 (i8255_portb_r_upper_bits inp s' 3 ltac:(lia))), H3.
  rewrite (proj2 (i8255_portb_r_upper_bits inp s' 4 ltac:(lia))), H4.
  rewrite (proj2 (i8255_portb_r_upper_bits inp s' 5 ltac:(lia))).
  rewrite (proj2 (i8255_portb_r_upper_bits inp s' 6 ltac:(lia))), H6.
  rewrite (proj2 (i8255_portb_r_upper_bits inp s' 7 ltac:(lia))), H7.
  repeat split; reflexivity.
Qed.

(** X10: in the byte of the port A read, bit 6 is the speech chip's busy
    output, whatever port 4 holds in that bit, and every other bit is the
    bit of port 4. *)
Theorem X10_porta_busy_bit (inp : inputs) (s : segaai_state) (i : Z) :
  Z.testbit (i8255_porta_r inp s) i
  = (i <? 8)
    && (if i =? 6 then upd7759_busy_r inp else Z.testbit (m_port4 inp) i).
Proof.
  unfold i8255_porta_r. rewrite u8_testbit.
  destruct (Z.ltb_spec i 8) as [Hlt | Hge]; cbn [andb]; [ | reflexivity].
  destruct (Z.le_gt_cases 0 i) as [Hpos | Hneg].
  - rewrite Z.lor_spec, Z.land_spec, Z.lnot_spec by exact Hpos.
    change 0x40 with (2 ^ 6). rewrite (Z.pow2_bits_eqb 6) by lia.
    rewrite (Z.eqb_sym 6 i).
    destruct (Z.eqb_spec i 6) as [-> | Hne]; cbn [negb].
    + rewrite andb_false_r, orb_false_r.
      destruct (upd7759_busy_r inp); [ | apply Z.bits_0].
      rewrite Z.pow2_bits_eqb by lia. reflexivity.
    + rewrite andb_true_r.
      destruct (upd7759_busy_r inp); [ | rewrite Z.bits_0; reflexivity].
      rewrite Z.pow2_bits_eqb by lia.
      destruct (Z.eqb_spec 6 i); [lia | reflexivity].
  - rewrite !Z.testbit_neg_r by lia.
    destruct (Z.eqb_spec i 6); [lia | reflexivity].
Qed.

(** X11: a write of a byte to port 0x0B stores the byte and makes two calls
    into the speech chip, in this order: the mode line gets the negation of
    bit 0 of the byte, and the ROM bank gets bit 1 of the byte, so the bank
    is 0 or 1 whatever the other bits are. *)
Theorem X11_speech_control_write (s : segaai_state) (data : Z) :
  m_upd7759_ctrl (io_write 0x0B data s) = data
  /\ forwarded (io_write 0x0B data s)
     = Upd7759_set_rom_bank (Z.b2z (Z.testbit data 1))
       :: Upd7759_md_w (Z.b2z (negb (Z.testbit data 0)))
       :: forwarded s
  /\ latch_view (io_write 0x0B data s) = latch_view s
  /\ m_irq_enabled (io_write 0x0B data s) = m_irq_enabled s.
Proof.
  change (io_write 0x0B data s) with (upd7759_ctrl_w s data).
  unfold upd7759_ctrl_w.
  cbn [m_upd7759_ctrl forwarded forward set_upd7759_ctrl latch_view
       m_irq_active m_prev_v9938_irq m_prev_upd7759_irq m_vector
       maincpu_line0 m_irq_enabled].
  change (Z.land data 1) with (Z.land data (2 ^ 0)).
  change (Z.land data 2) with (Z.land data (2 ^ 1)).
  rewrite truthy_land_pow2, land_pow2 by lia.
  repeat split.
  destruct (Z.testbit data 0), (Z.testbit data 1); reflexivity.
Qed.

(** ** More on the port map *)

Lemma land_lnot_1 (a : Z) : Z.land a (Z.lnot 1) = 2 * (a / 2).
Proof.
  rewrite <- Z.ldiff_land. change 1 with (Z.ones 1) at 1.
  rewrite Z.ldiff_ones_r, Z.shiftl_mul_pow2, Z.shiftr_div_pow2 by lia.
  change (2 ^ 1) with 2. lia.
Qed.

(** A window covers only addresses between its start and its end, the
    mirror included. *)
Lemma covers_bounds (e : map_entry) (addr : Z) :
  In e io_map ->
  covers e addr = true ->
  e_start e <= addr <= e_end e + e_mirror e.
Proof.
  intros Hin Hc. unfold covers in Hc.
  apply andb_prop in Hc. destruct Hc as [Hlo Hhi].
  apply Z.leb_le in Hlo, Hhi.
  unfold io_map in Hin. cbn [In] in Hin.
  repeat (destruct Hin as [<- | Hin]); try contradiction;
    cbn [e_start e_end e_mirror] in *;
    try (change (Z.lnot 0) with (-1) in Hlo, Hhi;
         rewrite Z.land_m1_r in Hlo, Hhi; lia).
  rewrite land_lnot_1 in Hlo, Hhi.
  pose proof (Z.div_mod addr 2 ltac:(lia)) as Hdiv.
  pose proof (Z.mod_pos_bound addr 2 ltac:(lia)) as Hmod.
  lia.
Qed.

(** X12: no two windows of the I/O map claim the same port, and every port
    that a window claims lies between 0x00 and 0x3F. *)
Theorem X12_io_windows_disjoint (addr : Z) (e1 e2 : map_entry) :
  In e1 io_map -> In e2 io_map ->
  covers e1 addr = true -> covers e2 addr = true ->
  e1 = e2 /\ 0x00 <= addr <= 0x3F.
Proof.
  intros Hin1 Hin2 Hc1 Hc2.
  pose proof (covers_bounds e1 addr Hin1 Hc1) as [L1 U1].
  pose proof (covers_bounds e2 addr Hin2 Hc2) as [L2 U2].
  clear Hc1 Hc2. split.
  - pose proof (Z.le_trans _ _ _ L1 U2) as H12.
    pose proof (Z.le_trans _ _ _ L2 U1) as H21.
    clear L1 U1 L2 U2.
    unfold io_map in Hin1, Hin2. cbn [In] in Hin1, Hin2.
    repeat (destruct Hin1 as [<- | Hin1]); try contradiction;
      repeat (destruct Hin2 as [<- | Hin2]); try contradiction;
      first [ reflexivity
            | exfalso; exact (H12 eq_refl)
            | exfalso; exact (H21 eq_refl) ].
  - clear L2 U2 Hin2.
    unfold io_map in Hin1. cbn [In] in Hin1.
    repeat (destruct Hin1 as [<- | Hin1]); try contradiction;
      cbn [e_start e_end e_mirror] in L1, U1; lia.
Qed.

(** ** The latch of port 0x1E *)

Lemma scan_rows_set_port_1e (inp : inputs) (v : Z) (todo : nat) :
  forall (row : nat) (s : segaai_state),
    scan_rows todo row inp (set_port_1e s v)
    = (fst (scan_rows todo row inp s),
       set_port_1e (snd (scan_rows todo row inp s)) v).
Proof.
  induction todo as [ | todo IH]; intros row s; cbn [scan_rows].
  - reflexivity.
  - destruct (truthy (nth row (m_port_tp inp) 0)); [ | apply IH].
    destruct ((0 <=? shift_out (nth row (m_port_tp inp) 0) (-1))
              && (shift_out (nth row (m_port_tp inp) 0) (-1)
                  <? Z.of_nat (length tp_x))); [reflexivity | apply IH].
Qed.

Lemma i8255_portb_r_set_port_1e (inp : inputs) (s : segaai_state) (v : Z) :
  i8255_portb_r inp (set_port_1e s v)
  = (fst (i8255_portb_r inp s), set_port_1e (snd (i8255_portb_r inp s)) v).
Proof.
  unfold i8255_portb_r, get_touchpad_pressed.
  cbn [m_port_1d m_i8255_portb set_i8255_portb set_port_1e].
  destruct (truthy (Z.land (m_port_1d s) 1)); [ | reflexivity].
  rewrite !scan_rows_set_i8255_portb.
  pose proof (scan_rows_set_port_1e inp v TOUCHPAD_ROWS 0 s) as E.
  destruct (scan_rows TOUCHPAD_ROWS 0 inp (set_port_1e s v)) as [p1 s1].
  destruct (scan_rows TOUCHPAD_ROWS 0 inp s) as [p2 s2].
  cbn [fst snd] in E. injection E as -> ->.
  destruct p2; reflexivity.
Qed.

Lemma irq_callback_set_port_1e (s : segaai_state) (v : Z) :
  irq_callback (set_port_1e s v)
  = match irq_callback s with
    | Ok (vector, s') => Ok (vector, set_port_1e s' v)
    | Fatalerror format args => Fatalerror format args
    end.
Proof.
  unfold irq_callback, fatalerror.
  cbn [m_irq_active m_irq_enabled set_port_1e].
  destruct (truthy (Z.land (Z.land (m_irq_active s) (m_irq_enabled s))
                           IRQ_V9938)); [reflexivity | ].
  destruct (truthy (Z.land (Z.land (m_irq_active s) (m_irq_enabled s))
                           IRQ_UPD7759)); [reflexivity | ].
  destruct (truthy (Z.land (m_irq_active s) (m_irq_enabled s))); reflexivity.
Qed.

(** One call from two states that differ in the latch of port 0x1E only:
    the same outcome, and again states that differ in that latch only. *)
Lemma step_set_port_1e (inp : inputs) (s : segaai_state) (v : Z) (e : event) :
  exists v',
    step inp (set_port_1e s v) e
    = match step inp s e with
      | Ok (out, s') => Ok (out, set_port_1e s' v')
      | Fatalerror format args => Fatalerror format args
      end.
Proof.
  destruct e as [st | st | st | | | | | d | a | a d]; cbn [step].
  - exists v. unfold vdp_interrupt.
    cbn [m_prev_v9938_irq set_port_1e].
    destruct (st =? CLEAR_LINE), (m_prev_v9938_irq s =? CLEAR_LINE);
      reflexivity.
  - exists v. unfold upd7759_drq_w.
    cbn [m_prev_upd7759_irq set_port_1e].
    destruct (upd7759_irq_level st =? CLEAR_LINE),
             (m_prev_upd7759_irq s =? CLEAR_LINE); reflexivity.
  - exists v. rewrite !upd7759_busy_w_id. reflexivity.
  - exists v. rewrite irq_callback_set_port_1e.
    destruct (irq_callback s) as [[vector s1] | ]; reflexivity.
  - exists v. reflexivity.
  - exists v. rewrite i8255_portb_r_set_port_1e.
    destruct (i8255_portb_r inp s) as [data s1]. reflexivity.
  - exists v. reflexivity.
  - exists v. reflexivity.
  - exists v. unfold io_read.
    destruct (read_window a) as [w | ]; [ | reflexivity].
    destruct (e_read w) as [h | ]; [ | reflexivity].
    destruct h; reflexivity.
  - unfold io_write.
    destruct (write_window a) as [w | ]; [ | exists v; reflexivity].
    destruct (e_write w) as [h | ]; [ | exists v; reflexivity].
    destruct h; try (exists v; reflexivity).
    + exists v. cbn [do_write]. unfold irq_select_w.
      cbn [m_irq_enabled set_port_1e].
      destruct (truthy (Z.land d 1)); reflexivity.
    + exists d. reflexivity.
Qed.

(** X13: the byte written to port 0x1E is stored and never used.  From two
    states that differ in that latch only, every sequence of calls gives the
    same returned values, the same fatal error if any, and final states that
    again differ in that latch only: the same interrupts, coordinates,
    registers and forwarded accesses. *)
Theorem X13_port_1e_latch_is_never_read
    (calls : list (inputs * event)) (s : segaai_state) (v : Z) :
  exists v',
    run (set_port_1e s v) calls
    = match run s calls with
      | Ok (outs, s') => Ok (outs, set_port_1e s' v')
      | Fatalerror format args => Fatalerror format args
      end.
Proof.
  revert s v. induction calls as [ | [inp e] rest IH]; intros s v;
    cbn [run].
  - exists v. reflexivity.
  - destruct (step_set_port_1e inp s v e) as [v1 ->].
    destruct (step inp s e) as [[out s1] | ]; [ | exists v; reflexivity].
    destruct (IH s1 v1) as [v2 ->].
    exists v2. destruct (run s1 rest) as [[outs s2] | ]; reflexivity.
Qed.

End Driver.

(** * The properties on examples *)

Lemma C1_enable_write_leaves_line_stale_witness :
  example_CLEAR_LINE <> example_ASSERT_LINE
  /\ maincpu_line0
       (io_write 0x16 0x01
          (vdp_interrupt example_CLEAR_LINE example_ASSERT_LINE
             (machine_start example_CLEAR_LINE started) example_ASSERT_LINE))
     = example_CLEAR_LINE.
Proof.
  split; [discriminate | ].
  apply (C1_enable_write_leaves_line_stale
           example_CLEAR_LINE example_ASSERT_LINE).
  discriminate.
Defined.

Lemma C2_video_vector_before_speech_vector_witness :
  is_u8 (m_irq_active both_requesting)
  /\ requesting both_requesting IRQ_V9938 = true
  /\ requesting both_requesting IRQ_UPD7759 = true
  /\ exists s1 s2,
       irq_callback example_CLEAR_LINE example_ASSERT_LINE both_requesting
       = Ok (0xF8, s1)
       /\ irq_callback example_CLEAR_LINE example_ASSERT_LINE s1
          = Ok (0xFB, s2).
Proof.
  assert (Hu8 : is_u8 (m_irq_active both_requesting))
    by (unfold is_u8; cbn; lia).
  split; [exact Hu8 | ]. split; [reflexivity | ]. split; [reflexivity | ].
  destruct (C2_video_vector_before_speech_vector
              example_CLEAR_LINE example_ASSERT_LINE both_requesting
              Hu8 eq_refl eq_refl)
    as (s1 & s2 & H1 & _ & _ & _ & _ & H2 & _).
  exists s1, s2. split; assumption.
Defined.

Lemma C4_select_writes_agree_with_enable_write_witness :
  is_u8 0xA5
  /\ m_irq_enabled
       (fold_left (fun st p => io_write 0x17 (select_byte 0xA5 p) st)
                  [0; 1; 2; 3; 4; 5; 6; 7] both_requesting)
     = m_irq_enabled (io_write 0x16 0xA5 both_requesting).
Proof.
  assert (Hm : is_u8 0xA5) by (unfold is_u8; lia).
  split; [exact Hm | ].
  apply (C4_select_writes_agree_with_enable_write
           (inputs_with_rows []) both_requesting 0xA5
           [0; 1; 2; 3; 4; 5; 6; 7] Hm).
  - intros p Hp. cbn [In] in Hp. lia.
  - intros p Hp. cbn [In]. lia.
Defined.

Lemma C5_acknowledge_without_source_is_fatal_witness :
  requesting unknown_requesting IRQ_V9938 = false
  /\ requesting unknown_requesting IRQ_UPD7759 = false
  /\ irq_callback example_CLEAR_LINE example_ASSERT_LINE unknown_requesting
     = Fatalerror msg_unknown_irq [0x02; 0x02].
Proof.
  split; [reflexivity | ]. split; [reflexivity | ].
  apply (C5_acknowledge_without_source_is_fatal
           example_CLEAR_LINE example_ASSERT_LINE unknown_requesting
           eq_refl eq_refl).
Defined.

Lemma C6_scan_samples_highest_bit_of_first_touched_row_witness :
  touchpad_matrix cells_in_rows_2_and_5
  /\ get_touchpad_pressed cells_in_rows_2_and_5 started
     = (true, set_touchpad_xy started 26 31).
Proof.
  assert (Hm : touchpad_matrix cells_in_rows_2_and_5).
  { split; [reflexivity | ]. repeat constructor; discriminate. }
  split; [exact Hm | ].
  apply (proj1 (C6_scan_samples_highest_bit_of_first_touched_row
                  cells_in_rows_2_and_5 started Hm) 2%nat 2).
  - unfold TOUCHPAD_ROWS. lia.
  - intros r Hr. destruct r as [ | [ | r]]; [reflexivity | reflexivity | lia].
  - split; [reflexivity | ]. intros j Hj.
    change (Z.testbit 6 j = false).
    apply Z.bits_above_log2; [lia | exact Hj].
Defined.

(** C6 as the specification words it fails: with bits 0 and 1 of row 0
    touched, the lowest set bit of the first touched row is bit 0, whose
    X entry is 5, and the scan samples X = 15, the entry of bit 1. *)
Lemma C6_lowest_bit_counterexample :
  ~ (forall (inp : inputs) (s : segaai_state) (row : nat) (bit : Z),
        touchpad_matrix inp ->
        (row < TOUCHPAD_ROWS)%nat ->
        (forall r, (r < row)%nat -> nth r (m_port_tp inp) 0 = 0) ->
        is_lowest_set_bit (nth row (m_port_tp inp) 0) bit ->
        get_touchpad_pressed inp s
        = (true,
           set_touchpad_xy s (nth (Z.to_nat bit) tp_x 0) (nth row tp_y 0))).
Proof.
  intros claim.
  assert (Hm : touchpad_matrix two_cells_in_row_0).
  { split; [reflexivity | ]. repeat constructor; discriminate. }
  specialize (claim two_cells_in_row_0 started 0%nat 0 Hm).
  assert (E : get_touchpad_pressed two_cells_in_row_0 started
              = (true, set_touchpad_xy started 5 6)).
  { apply claim.
    - unfold TOUCHPAD_ROWS. lia.
    - intros r Hr. lia.
    - split; [reflexivity | intros j Hj; lia]. }
  assert (Hcode : m_touchpad_x (snd (get_touchpad_pressed two_cells_in_row_0
                                       started)) = 15)
    by reflexivity.
  rewrite E in Hcode. discriminate.
Qed.

Lemma C10_speech_pending_set_on_falling_drq_witness :
  example_CLEAR_LINE <> example_ASSERT_LINE
  /\ pending
       (upd7759_drq_w example_CLEAR_LINE example_ASSERT_LINE
          (upd7759_drq_w example_CLEAR_LINE example_ASSERT_LINE started 1) 0)
       IRQ_UPD7759
     = true
  /\ pending
       (upd7759_drq_w example_CLEAR_LINE example_ASSERT_LINE
          (upd7759_drq_w example_CLEAR_LINE example_ASSERT_LINE started 0) 1)
       IRQ_UPD7759
     = pending
         (upd7759_drq_w example_CLEAR_LINE example_ASSERT_LINE started 0)
         IRQ_UPD7759.
Proof.
  assert (Hd : example_CLEAR_LINE <> example_ASSERT_LINE) by discriminate.
  split; [exact Hd | ].
  destruct (C10_speech_pending_set_on_falling_drq
              example_CLEAR_LINE example_ASSERT_LINE Hd)
    as (_ & _ & Hpend & _).
  split; rewrite Hpend; reflexivity.
Defined.

(** The scenario of the specification: with only the video chip enabled,
    one rising edge of its signal asserts the line; the acknowledge returns
    0xF8, clears the pending mask and clears the line. *)
Example video_interrupt_scenario :
  let s1 :=
    vdp_interrupt example_CLEAR_LINE example_ASSERT_LINE
      (io_write 0x16 0x01 (machine_start example_CLEAR_LINE started))
      example_ASSERT_LINE in
  maincpu_line0 s1 = example_ASSERT_LINE
  /\ exists s2,
       irq_callback example_CLEAR_LINE example_ASSERT_LINE s1
       = Ok (0xF8, s2)
       /\ m_irq_active s2 = 0x00
       /\ maincpu_line0 s2 = example_CLEAR_LINE.
Proof.
  split; [reflexivity | ]. eexists. repeat split; reflexivity.
Qed.

(** * Sound box expansion *)

Lemma store_length (l : list Z) :
  forall (i : nat) (v : Z),
    length (segaai_soundbox_device.store l i v) = length l.
Proof.
  induction l as [ | x rest IH]; intros i v; [reflexivity | ].
  destruct i as [ | j]; cbn [segaai_soundbox_device.store length];
    [reflexivity | rewrite IH; reflexivity].
Qed.

Lemma store_nth (l : list Z) :
  forall (i j : nat) (v : Z),
    (i < length l)%nat ->
    nth j (segaai_soundbox_device.store l i v) 0
    = if Nat.eqb i j then v else nth j l 0.
Proof.
  induction l as [ | x rest IH]; intros i j v Hi; cbn [length] in Hi;
    [lia | ].
  destruct i as [ | i], j as [ | j];
    cbn [segaai_soundbox_device.store nth Nat.eqb]; try reflexivity.
  apply IH. lia.
Qed.

Lemma land_ram_mask (offset : Z) :
  0 <= Z.land offset 0x1ffff < 0x20000.
Proof.
  change 0x1ffff with (Z.ones 17). rewrite Z.land_ones by lia.
  apply Z.mod_pos_bound. lia.
Qed.

(** X14: every access to the sound box RAM stays inside the array, for any
    offset; a byte written at an offset is read back at every offset that
    agrees with it in the low 17 bits and at no other, where the old
    contents stay; the offsets of the 128KB window are their own low 17
    bits, so no two of them share a cell; and a RAM write leaves the ROM as
    it was. *)
Theorem X14_soundbox_ram_write_then_read
    (d : segaai_soundbox_device.device) (offset offset' data : Z) :
  segaai_soundbox_device.well_formed d ->
  (Z.to_nat (Z.land offset 0x1ffff)
   < length (segaai_soundbox_device.m_ram d))%nat
  /\ segaai_soundbox_device.read_lo
       (segaai_soundbox_device.write_lo d offset data) offset'
     = (if Z.land offset 0x1ffff =? Z.land offset' 0x1ffff
        then data
        else segaai_soundbox_device.read_lo d offset')
  /\ (0 <= offset < 0x20000 -> Z.land offset 0x1ffff = offset)
  /\ segaai_soundbox_device.well_formed
       (segaai_soundbox_device.write_lo d offset data)
  /\ segaai_soundbox_device.read_hi
       (segaai_soundbox_device.write_lo d offset data) offset'
     = segaai_soundbox_device.read_hi d offset'.
Proof.
  intros [Hram Hrom].
  pose proof (land_ram_mask offset) as Hin.
  pose proof (land_ram_mask offset') as Hin'.
  assert (Hbound : (Z.to_nat (Z.land offset 0x1ffff)
                    < length (segaai_soundbox_device.m_ram d))%nat)
    by (rewrite Hram; lia).
  split; [exact Hbound | split; [ | split; [ | split]]].
  - unfold segaai_soundbox_device.read_lo, segaai_soundbox_device.write_lo.
    cbn [segaai_soundbox_device.m_ram].
    rewrite store_nth by exact Hbound.
    destruct (Z.eqb_spec (Z.land offset 0x1ffff) (Z.land offset' 0x1ffff))
      as [Heq | Hne].
    + rewrite Heq, Nat.eqb_refl. reflexivity.
    + destruct (Nat.eqb_spec (Z.to_nat (Z.land offset 0x1ffff))
                             (Z.to_nat (Z.land offset' 0x1ffff)));
        [lia | reflexivity].
  - intros Hoff. change 0x1ffff with (Z.ones 17).
    rewrite Z.land_ones by lia. apply Z.mod_small.
    change (2 ^ 17) with 0x20000. exact Hoff.
  - split; cbn [segaai_soundbox_device.write_lo
                  segaai_soundbox_device.m_ram segaai_soundbox_device.m_rom];
      [rewrite store_length; exact Hram | exact Hrom].
  - reflexivity.
Qed.



(** X16: no two windows of the memory map share an address, and all of them
    lie in the 20-bit address space; the window of the expansion's RAM is
    as long as the sound box's RAM and the window of its ROM as long as the
    ROM, so the sound box's offset masks change no offset of these windows
    and no two addresses of a window meet in one cell. *)
Theorem X16_memory_windows_disjoint (addr : Z) (e1 e2 : mem_entry) :
  In e1 mem_map -> In e2 mem_map ->
  mem_covers e1 addr = true -> mem_covers e2 addr = true ->
  e1 = e2
  /\ 0x00000 <= addr <= 0xFFFFF
  /\ (mem_what e1 = Mem_exp_lo ->
      Z.land (addr - mem_start e1) 0x1ffff = addr - mem_start e1)
  /\ (mem_what e1 = Mem_exp_hi ->
      Z.land (addr - mem_start e1) 0xffff = addr - mem_start e1).
Proof.
  intros Hin1 Hin2 Hc1 Hc2. unfold mem_covers in Hc1, Hc2.
  apply andb_prop in Hc1, Hc2.
  destruct Hc1 as [L1 U1], Hc2 as [L2 U2].
  apply Z.leb_le in L1, U1, L2, U2.
  split; [ | split; [ | split]].
  - pose proof (Z.le_trans _ _ _ L1 U2) as H12.
    pose proof (Z.le_trans _ _ _ L2 U1) as H21.
    clear L1 U1 L2 U2.
    unfold mem_map in Hin1, Hin2. cbn [In] in Hin1, Hin2.
    repeat (destruct Hin1 as [<- | Hin1]); try contradiction;
      repeat (destruct Hin2 as [<- | Hin2]); try contradiction;
      first [ reflexivity
            | exfalso; exact (H12 eq_refl)
            | exfalso; exact (H21 eq_refl) ].
  - clear L2 U2 Hin2. unfold mem_map in Hin1. cbn [In] in Hin1.
    repeat (destruct Hin1 as [<- | Hin1]); try contradiction;
      cbn [mem_start mem_end] in L1, U1; lia.
  - clear L2 U2 Hin2. intros Hwhat.
    unfold mem_map in Hin1. cbn [In] in Hin1.
    repeat (destruct Hin1 as [<- | Hin1]); try contradiction;
      try discriminate Hwhat.
    cbn [mem_start mem_end] in *. change 0x1ffff with (Z.ones 17).
    rewrite Z.land_ones by lia. apply Z.mod_small.
    change (2 ^ 17) with 0x20000. lia.
  - clear L2 U2 Hin2. intros Hwhat.
    unfold mem_map in Hin1. cbn [In] in Hin1.
    repeat (destruct Hin1 as [<- | Hin1]); try contradiction;
      try discriminate Hwhat.
    cbn [mem_start mem_end] in *. change 0xffff with (Z.ones 16).
    rewrite Z.land_ones by lia. apply Z.mod_small.
    change (2 ^ 16) with 0x10000. lia.
Qed.

(** * The further properties on examples *)

Lemma X1_pending_mask_has_only_source_bits_witness :
  exists outs s',
    run example_CLEAR_LINE example_ASSERT_LINE
        (machine_start example_CLEAR_LINE started) both_edges
    = Ok (outs, s')
    /\ (m_irq_active s' = 0x00 \/ m_irq_active s' = 0x01
        \/ m_irq_active s' = 0x08 \/ m_irq_active s' = 0x09).
Proof.
  eexists. eexists. split; [reflexivity | ].
  eapply (X1_pending_mask_has_only_source_bits
            example_CLEAR_LINE example_ASSERT_LINE started both_edges).
  reflexivity.
Defined.

Lemma X2_unknown_irq_diagnostic_unreachable_witness :
  run example_CLEAR_LINE example_ASSERT_LINE
      (machine_start example_CLEAR_LINE started)
      [(inputs_with_rows [], Ev_irq_callback)]
  = Fatalerror msg_no_irq [0; 0]
  /\ msg_no_irq <> msg_unknown_irq.
Proof.
  split; [reflexivity | ].
  apply (X2_unknown_irq_diagnostic_unreachable
           example_CLEAR_LINE example_ASSERT_LINE started
           [(inputs_with_rows [], Ev_irq_callback)] msg_no_irq [0; 0]).
  reflexivity.
Defined.

Lemma X3_two_acknowledges_in_a_row_witness :
  exists s1 s2,
    irq_callback example_CLEAR_LINE example_ASSERT_LINE both_requesting
    = Ok (0xF8, s1)
    /\ irq_callback example_CLEAR_LINE example_ASSERT_LINE s1 = Ok (0xFB, s2)
    /\ exists format,
         irq_callback example_CLEAR_LINE example_ASSERT_LINE s2
         = Fatalerror format [m_irq_active s2; m_irq_enabled both_requesting].
Proof.
  eexists. eexists. split; [reflexivity | ]. split; [reflexivity | ].
  eapply (X3_two_acknowledges_in_a_row
            example_CLEAR_LINE example_ASSERT_LINE both_requesting);
    reflexivity.
Defined.

Lemma X4_acknowledge_outcome_witness :
  example_CLEAR_LINE <> example_ASSERT_LINE
  /\ ((exists vector s',
         irq_callback example_CLEAR_LINE example_ASSERT_LINE both_requesting
         = Ok (vector, s'))
      <-> requesting both_requesting IRQ_V9938 = true
          \/ requesting both_requesting IRQ_UPD7759 = true).
Proof.
  assert (Hd : example_CLEAR_LINE <> example_ASSERT_LINE) by discriminate.
  split; [exact Hd | ].
  apply (X4_acknowledge_outcome
           example_CLEAR_LINE example_ASSERT_LINE Hd both_requesting).
Defined.

Lemma X5_line_out_of_step_only_by_enable_change_witness :
  example_CLEAR_LINE <> example_ASSERT_LINE
  /\ line_follows example_ASSERT_LINE
       (vdp_interrupt example_CLEAR_LINE example_ASSERT_LINE started 1).
Proof.
  assert (Hd : example_CLEAR_LINE <> example_ASSERT_LINE) by discriminate.
  split; [exact Hd | ].
  apply (proj1 (X5_line_out_of_step_only_by_enable_change
                  example_CLEAR_LINE example_ASSERT_LINE Hd
                  (inputs_with_rows []) started (Ev_vdp_interrupt 1) None
                  (vdp_interrupt example_CLEAR_LINE example_ASSERT_LINE
                     started 1)
                  eq_refl)).
  left. exists 1. reflexivity.
Defined.

Lemma X6_scan_true_iff_some_row_touched_witness :
  touchpad_matrix cells_in_rows_2_and_5
  /\ fst (get_touchpad_pressed cells_in_rows_2_and_5 started) = true.
Proof.
  assert (Hm : touchpad_matrix cells_in_rows_2_and_5).
  { split; [reflexivity | ]. repeat constructor; discriminate. }
  split; [exact Hm | ].
  apply (X6_scan_true_iff_some_row_touched cells_in_rows_2_and_5 started Hm).
  exists 2%nat. split; [unfold TOUCHPAD_ROWS; lia | discriminate].
Defined.

Lemma X7_coordinate_read_returns_table_entry_witness :
  exists outs s',
    run example_CLEAR_LINE example_ASSERT_LINE
        (machine_start example_CLEAR_LINE started) scan_and_select_y
    = Ok (outs, s')
    /\ fst (io_read cells_in_rows_2_and_5 0x1E s') = 31
    /\ is_u8 (fst (io_read cells_in_rows_2_and_5 0x1E s')).
Proof.
  eexists. eexists. split; [reflexivity | ]. split; [reflexivity | ].
  eapply (X7_coordinate_read_returns_table_entry
            example_CLEAR_LINE example_ASSERT_LINE started scan_and_select_y).
  reflexivity.
Defined.

Lemma X8_rows_beyond_x_table_are_skipped_witness :
  get_touchpad_pressed stray_bit_in_row_0 started
  = (true, set_touchpad_xy started 26 31).
Proof.
  apply (X8_rows_beyond_x_table_are_skipped stray_bit_in_row_0 started 2%nat).
  - unfold TOUCHPAD_ROWS. lia.
  - intros r Hr. destruct r as [ | [ | r]]; [right | left | lia].
    + discriminate.
    + reflexivity.
  - split; reflexivity.
Defined.

Lemma X9_portb_upper_bits_fixed_witness :
  exists outs s',
    run example_CLEAR_LINE example_ASSERT_LINE
        (machine_start example_CLEAR_LINE started) scan_and_select_y
    = Ok (outs, s')
    /\ Z.testbit (fst (i8255_portb_r cells_in_rows_2_and_5 s')) 7 = false.
Proof.
  eexists. eexists. split; [reflexivity | ].
  eapply (X9_portb_upper_bits_fixed
            example_CLEAR_LINE example_ASSERT_LINE started scan_and_select_y).
  reflexivity.
Defined.

Lemma X12_io_windows_disjoint_witness :
  In (mkEntry 0x0c 0x0c 0 None (Some Wr_sn76489a)) io_map
  /\ covers (mkEntry 0x0c 0x0c 0 None (Some Wr_sn76489a)) 0x0C = true
  /\ 0x00 <= 0x0C <= 0x3F.
Proof.
  assert (Hin : In (mkEntry 0x0c 0x0c 0 None (Some Wr_sn76489a)) io_map)
    by (do 5 right; left; reflexivity).
  split; [exact Hin | ]. split; [reflexivity | ].
  apply (X12_io_windows_disjoint 0x0C _ _ Hin Hin eq_refl eq_refl).
Defined.

Lemma X14_soundbox_ram_write_then_read_witness :
  segaai_soundbox_device.well_formed blank_soundbox
  /\ segaai_soundbox_device.read_lo
       (segaai_soundbox_device.write_lo blank_soundbox 0x20005 7) 0x00005
     = 7.
Proof.
  assert (Hwf : segaai_soundbox_device.well_formed blank_soundbox)
    by (split; apply repeat_length).
  split; [exact Hwf | ].
  rewrite (proj1 (proj2 (X14_soundbox_ram_write_then_read
                           blank_soundbox 0x20005 0x00005 7 Hwf))).
  reflexivity.
Defined.

Lemma X16_memory_windows_disjoint_witness :
  In (mkMem 0x20000 0x3ffff Mem_exp_lo) mem_map
  /\ mem_covers (mkMem 0x20000 0x3ffff Mem_exp_lo) 0x2ABCD = true
  /\ 0x00000 <= 0x2ABCD <= 0xFFFFF.
Proof.
  assert (Hin : In (mkMem 0x20000 0x3ffff Mem_exp_lo) mem_map)
    by (right; left; reflexivity).
  split; [exact Hin | ]. split; [reflexivity | ].
  apply (X16_memory_windows_disjoint 0x2ABCD _ _ Hin Hin eq_refl eq_refl).
Defined.
